(** * Biosafety kill-switch circuit: a shallow embedding of
      [quantumSim_biosafetyCir.py] and its properties.

    The script builds a five-qubit reversible circuit for the rule
    K = T OR M OR G, sweeps the eight classical inputs through a simulator,
    samples the circuit on Hadamard-prepared inputs with and without noise,
    and plots the histograms.

    Layout: Python values and exceptions, the Qiskit circuit and noise-model
    data the script manipulates, a reference model of the simulation engine,
    the effectful world the script runs in, the script's functions, and then
    the theorems. *)

From Stdlib Require Import List String Ascii ZArith QArith Bool Arith Lia.
Import ListNotations.

Set Implicit Arguments.

Close Scope Q_scope.
Open Scope list_scope.
Open Scope nat_scope.

(* ================================================================== *)
(** ** Python values, exceptions and a few built-ins *)
(* ================================================================== *)

Module Py.

(** The exceptions the modelled code can raise. *)
Inductive PyError : Type :=
| CircuitError
| IndexError
| ZeroDivisionError.

(** A computation that returns a value or raises. *)
Inductive result (A : Type) : Type :=
| Ok (a : A)
| Raise (e : PyError).

Arguments Ok {A} a.
Arguments Raise {A} e.

Definition rbind {A B} (m : result A) (k : A -> result B) : result B :=
  match m with
  | Ok a => k a
  | Raise e => Raise e
  end.

(** Truth value of a Python int: [if n:] holds when [n] is not zero. *)
Definition truthy (n : Z) : bool := negb (n =? 0)%Z.

(** [a or b] on ints: the first operand when it is truthy, else the second. *)
Definition py_or (a b : Z) : Z := if truthy a then a else b.

(** [int(n)] on an int is the identity. *)
Definition int (n : Z) : Z := n.

(** [a / b] on ints. Python returns the float nearest to the quotient; the
    model keeps the quotient itself, in lowest terms, so that results can
    be compared with [=]. *)
Definition truediv (a b : Z) : result Q :=
  if (b =? 0)%Z then Raise ZeroDivisionError
  else Ok (Qred (Qdiv (inject_Z a) (inject_Z b))).

(** [s[0]] on a string. *)
Definition str_first (s : string) : result ascii :=
  match s with
  | EmptyString => Raise IndexError
  | String c _ => Ok c
  end.

(** [s.replace(old, new)] for one-character [old] and [new]. *)
Fixpoint replace (old new : ascii) (s : string) : string :=
  match s with
  | EmptyString => EmptyString
  | String c rest =>
      String (if Ascii.eqb c old then new else c) (replace old new rest)
  end.

(** [itertools.product(xs, repeat=3)]: leftmost component varies slowest. *)
Definition product3 {A} (xs : list A) : list (A * A * A) :=
  flat_map (fun a =>
    flat_map (fun b =>
      map (fun c => (a, b, c)) xs) xs) xs.

(** A dict as the insertion-ordered list of its items. *)
Definition dict (K V : Type) : Type := list (K * V).

Definition keys {K V} (d : dict K V) : list K := map fst d.
Definition values {K V} (d : dict K V) : list V := map snd d.

(** [sum] over naturals. *)
Definition sum (xs : list nat) : nat := fold_right Nat.add 0 xs.

End Py.

Import Py.

Declare Scope result_scope.
Delimit Scope result_scope with result.
Notation "x <- m ;; k" := (rbind m (fun x => k))
  (at level 61, m at next level, right associativity) : result_scope.
Notation "' pat <- m ;; k" := (rbind m (fun x => match x with pat => k end))
  (at level 61, pat pattern, m at next level, right associativity) : result_scope.

(* ================================================================== *)
(** ** Qiskit: registers, circuits, noise models, histograms *)
(* ================================================================== *)

Module Qiskit.

(** A register is a named block of bits; bits are identified with their
    position, since every circuit of the script is built over exactly one
    quantum and one classical register. *)
Record Register : Type := mkRegister { size : nat; name : string }.

Definition QuantumRegister (n : nat) (nm : string) : Register := mkRegister n nm.
Definition ClassicalRegister (n : nat) (nm : string) : Register := mkRegister n nm.

(** [reg[i]] *)
Definition getitem (reg : Register) (i : nat) : result nat :=
  if i <? size reg then Ok i else Raise IndexError.

(** The instructions the script emits. [Measure q c] writes qubit [q] to
    classical bit [c]. *)
Inductive Instruction : Type :=
| Reset (q : nat)
| X (q : nat)
| H (q : nat)
| CX (control target : nat)
| CCX (control1 control2 target : nat)
| Measure (q c : nat).

(** The qubits an instruction acts on. *)
Definition qubits_of (i : Instruction) : list nat :=
  match i with
  | Reset q | X q | H q => [q]
  | CX c t => [c; t]
  | CCX c1 c2 t => [c1; c2; t]
  | Measure q _ => [q]
  end.

Record QuantumCircuit : Type := mkCircuit {
  num_qubits : nat;
  num_clbits : nat;
  data : list Instruction
}.

(** [QuantumCircuit(qr, cr)] *)
Definition new_circuit (qr cr : Register) : QuantumCircuit :=
  mkCircuit (size qr) (size cr) [].

Definition append (qc : QuantumCircuit) (i : Instruction) : QuantumCircuit :=
  mkCircuit (num_qubits qc) (num_clbits qc) (data qc ++ [i]).

Definition in_range (qc : QuantumCircuit) (qs : list nat) : bool :=
  forallb (fun q => q <? num_qubits qc) qs.

Fixpoint distinct (qs : list nat) : bool :=
  match qs with
  | [] => true
  | q :: rest => negb (existsb (Nat.eqb q) rest) && distinct rest
  end.

(** A gate method appends its instruction, and raises when an operand is
    not a qubit of the circuit or an operand is repeated. *)
Definition gate (qc : QuantumCircuit) (i : Instruction) : result QuantumCircuit :=
  if in_range qc (qubits_of i) && distinct (qubits_of i)
  then Ok (append qc i) else Raise CircuitError.

Definition reset (qc : QuantumCircuit) (q : nat) := gate qc (Reset q).
Definition x (qc : QuantumCircuit) (q : nat) := gate qc (X q).
Definition cx (qc : QuantumCircuit) (c t : nat) := gate qc (CX c t).
Definition ccx (qc : QuantumCircuit) (c1 c2 t : nat) := gate qc (CCX c1 c2 t).

(** [qc.h([q, ...])]: one Hadamard per listed qubit, in order. *)
Fixpoint h (qc : QuantumCircuit) (qs : list nat) : result QuantumCircuit :=
  match qs with
  | [] => Ok qc
  | q :: rest => rbind (gate qc (H q)) (fun qc' => h qc' rest)
  end.

(** [qc.measure(q, c)] *)
Definition measure (qc : QuantumCircuit) (q c : nat) : result QuantumCircuit :=
  if (q <? num_qubits qc) && (c <? num_clbits qc)
  then Ok (append qc (Measure q c)) else Raise CircuitError.

(** [qc.measure([q, ...], [c, ...])]: the two lists are paired off; they
    must have the same length. *)
Fixpoint measure_each (qc : QuantumCircuit) (qs cs : list nat)
  : result QuantumCircuit :=
  match qs, cs with
  | [], [] => Ok qc
  | q :: qs', c :: cs' => rbind (measure qc q c) (fun qc' => measure_each qc' qs' cs')
  | _, _ => Raise CircuitError
  end.

(** [range(n)] *)
Definition range (n : nat) : list nat := seq 0 n.

(** [qc.copy()] is a circuit with the same contents. *)
Definition copy (qc : QuantumCircuit) : QuantumCircuit := qc.

(** [self.compose(other)]: a new circuit over the bits of [self] holding
    the instructions of [self] followed by those of [other], whose bits are
    mapped by position onto the first bits of [self]. *)
Definition compose (self other : QuantumCircuit) : result QuantumCircuit :=
  if (num_qubits other <=? num_qubits self) && (num_clbits other <=? num_clbits self)
  then Ok (mkCircuit (num_qubits self) (num_clbits self) (data self ++ data other))
  else Raise CircuitError.

(** Every operand of every instruction names a bit of the circuit. *)
Definition instruction_ok (nq nc : nat) (i : Instruction) : bool :=
  forallb (fun q => q <? nq) (qubits_of i) &&
  match i with Measure _ c => c <? nc | _ => true end.

Definition well_formed (qc : QuantumCircuit) : bool :=
  forallb (instruction_ok (num_qubits qc) (num_clbits qc)) (data qc).

(** The histogram [result.get_counts()] returns: bitstring to count, the
    bitstring listing the classical bits from the highest index down. *)
Definition Counts : Type := dict string nat.

(** *** qiskit_aer.noise

    The noise constructors are kept as the data they are called with; the
    library's own checks on the ranges of the probabilities are outside the
    script and are not modelled. Probabilities are rationals. *)

Inductive QuantumError : Type :=
| depolarizing_error (param : Q) (num_qubits : nat)
| composed (first second : QuantumError).

Record ReadoutError : Type := mkReadoutError { probabilities : list (list Q) }.

Record NoiseModel : Type := mkNoiseModel {
  default_quantum_errors : dict string QuantumError;
  default_readout_error : option ReadoutError
}.

(** [NoiseModel()] *)
Definition empty_noise_model : NoiseModel := mkNoiseModel [] None.

Fixpoint lookup {V} (k : string) (d : dict string V) : option V :=
  match d with
  | [] => None
  | (k', v) :: rest => if String.eqb k k' then Some v else lookup k rest
  end.

Fixpoint update {V} (k : string) (v : V) (d : dict string V) : dict string V :=
  match d with
  | [] => [(k, v)]
  | (k', v') :: rest =>
      if String.eqb k k' then (k', v) :: rest else (k', v') :: update k v rest
  end.

(** One label of [add_all_qubit_quantum_error]: a label that already has an
    error gets the composition of the old error with the new one. *)
Definition add_error (error : QuantumError) (errors : dict string QuantumError)
    (label : string) : dict string QuantumError :=
  match lookup label errors with
  | Some old => update label (composed old error) errors
  | None => update label error errors
  end.

Definition add_all_qubit_quantum_error (nm : NoiseModel) (error : QuantumError)
    (instructions : list string) : NoiseModel :=
  mkNoiseModel (fold_left (add_error error) instructions (default_quantum_errors nm))
               (default_readout_error nm).

Definition add_all_qubit_readout_error (nm : NoiseModel) (error : ReadoutError)
  : NoiseModel :=
  mkNoiseModel (default_quantum_errors nm) (Some error).

End Qiskit.

Import Qiskit.

(* ================================================================== *)
(** ** The simulation engine *)
(* ================================================================== *)

Module Engine.

(** Modelled from the spec: the state vector of the simulation engine (spec
    section 3). The script obtains the engine from the [qiskit_aer] package
    ([AerSimulator]), which is not part of the repository.

    A state over [n] qubits is the list of its 2^n amplitudes, indexed by
    the basis state with qubit 0 least significant. X, H, CX, CCX and the
    projection of Reset have real matrices, so amplitudes are kept as
    integers up to one common positive factor: H is applied as
    [[1,1],[1,-1]] and nothing is renormalised. The probability of basis
    state [i] is [amp i ^ 2] over the sum of all squares. *)
Definition StateVector : Type := list Z.

Definition amp (sv : StateVector) (i : nat) : Z := nth i sv 0%Z.

(** Modelled from the spec: the all-|0> state a shot starts from (4.3). *)
Definition zero_state (n : nat) : StateVector := 1%Z :: repeat 0%Z (2 ^ n - 1).

Definition tabulate (len : nat) (f : nat -> Z) : StateVector := map f (seq 0 len).

(** The basis state that differs from [i] in bit [q] only. *)
Definition flip (q i : nat) : nat := Nat.lxor i (2 ^ q).

(** Modelled from the spec: X swaps the amplitudes of the basis states that
    differ in the target bit only (4.1). *)
Definition apply_X (t : nat) (sv : StateVector) : StateVector :=
  tabulate (List.length sv) (fun i => amp sv (flip t i)).

(** Modelled from the spec: H applies [[1,1],[1,-1]] to each such pair
    (4.1); the factor 1/sqrt 2 is the common factor left out. *)
Definition apply_H (t : nat) (sv : StateVector) : StateVector :=
  tabulate (List.length sv) (fun i =>
    if Nat.testbit i t then (amp sv (flip t i) - amp sv i)%Z
    else (amp sv i + amp sv (flip t i))%Z).

(** Modelled from the spec: CX is X on the target where the control bit is
    1 (4.1). *)
Definition apply_CX (c t : nat) (sv : StateVector) : StateVector :=
  tabulate (List.length sv) (fun i =>
    if Nat.testbit i c then amp sv (flip t i) else amp sv i).

(** Modelled from the spec: CCX is X on the target where both control bits
    are 1 (4.1). *)
Definition apply_CCX (c1 c2 t : nat) (sv : StateVector) : StateVector :=
  tabulate (List.length sv) (fun i =>
    if Nat.testbit i c1 && Nat.testbit i c2 then amp sv (flip t i) else amp sv i).

(** Modelled from the spec: Reset keeps the amplitudes whose target bit is
    0; when nothing is left, the result is the all-zero basis state (4.1). *)
Definition apply_Reset (t : nat) (sv : StateVector) : StateVector :=
  let kept := tabulate (List.length sv) (fun i =>
                if Nat.testbit i t then 0%Z else amp sv i) in
  if forallb (Z.eqb 0) kept
  then tabulate (List.length sv) (fun i => if i =? 0 then 1%Z else 0%Z)
  else kept.

(** Modelled from the spec: one gate operation on a state (4.1).
    Measurement is terminal (4.3): it does not change the amplitudes and
    only decides which qubit each classical bit reports. *)
Definition apply (i : Instruction) (sv : StateVector) : StateVector :=
  match i with
  | Reset q => apply_Reset q sv
  | X q => apply_X q sv
  | H q => apply_H q sv
  | CX c t => apply_CX c t sv
  | CCX c1 c2 t => apply_CCX c1 c2 t sv
  | Measure _ _ => sv
  end.

(** Modelled from the spec: the operations applied in sequence (4.3). *)
Definition evolve (ops : list Instruction) (sv : StateVector) : StateVector :=
  fold_left (fun s i => apply i s) ops sv.

Definition final_state (qc : QuantumCircuit) : StateVector :=
  evolve (data qc) (zero_state (num_qubits qc)).

(** The states a run passes through: the initial one, then the one after
    each instruction. *)
Fixpoint trajectory (ops : list Instruction) (sv : StateVector)
  : list StateVector :=
  match ops with
  | [] => [sv]
  | i :: rest => sv :: trajectory rest (apply i sv)
  end.

(** Qubit [q] carries no amplitude on a basis state with bit [q] set; for
    a state that is not the null vector this is "qubit [q] is |0>". *)
Definition qubit_zero (q : nat) (sv : StateVector) : Prop :=
  forall i, Nat.testbit i q = true -> amp sv i = 0%Z.

(** The qubit reported in classical bit [c]: the one of the last
    measurement into [c]. *)
Fixpoint measured_into (c : nat) (ops : list Instruction) : option nat :=
  match ops with
  | [] => None
  | Measure q c' :: rest =>
      match measured_into c rest with
      | Some q' => Some q'
      | None => if c =? c' then Some q else None
      end
  | _ :: rest => measured_into c rest
  end.

Definition bit_char (b : bool) : ascii := if b then "1"%char else "0"%char.

Definition clbit_value (ops : list Instruction) (basis c : nat) : bool :=
  match measured_into c ops with
  | Some q => Nat.testbit basis q
  | None => false
  end.

(** Modelled from the spec: the reported bitstring for a sampled basis
    state, one character per classical bit, highest index first (3, 4.3). *)
Definition bitstring (qc : QuantumCircuit) (basis : nat) : string :=
  string_of_list_ascii
    (map (fun c => bit_char (clbit_value (data qc) basis c))
         (rev (seq 0 (num_clbits qc)))).

(** Modelled from the spec: the Born weights |amplitude|^2 (4.3), up to the
    common factor. *)
Definition weights (sv : StateVector) : list Z := map (fun a => (a * a)%Z) sv.

Definition total (ws : list Z) : Z := fold_right Z.add 0%Z ws.

(** The basis state whose cumulative weight interval contains [r]. *)
Fixpoint pick (ws : list Z) (r : Z) : nat :=
  match ws with
  | [] => 0
  | w :: rest => if (r <? w)%Z then 0 else S (pick rest (r - w))
  end.

(** Modelled from the spec: the seedable pseudo-random source (5); here a
    linear congruential generator. *)
Definition lcg_next (s : Z) : Z := ((1103515245 * s + 12345) mod 2 ^ 31)%Z.

Definition draw (ws : list Z) (s : Z) : nat :=
  pick ws ((s / 65536) mod total ws)%Z.

(** Modelled from the spec: one basis-state sample from the joint
    distribution per shot (4.3). *)
Fixpoint sample (ws : list Z) (shots : nat) (s : Z) : list nat :=
  match shots with
  | 0 => []
  | S n => let s' := lcg_next s in draw ws s' :: sample ws n s'
  end.

(** [counts[key] = counts.get(key, 0) + 1] *)
Fixpoint increment (key : string) (counts : Counts) : Counts :=
  match counts with
  | [] => [(key, 1)]
  | (k, n) :: rest =>
      if String.eqb key k then (k, S n) :: rest else (k, n) :: increment key rest
  end.

(** Modelled from the spec: the outcome histogram accumulated over the
    shots (3, 4.3). *)
Definition tally (outcomes : list string) : Counts :=
  fold_left (fun counts key => increment key counts) outcomes [].

(** Modelled from the spec: a run without noise model; the amplitudes are
    evolved once and only the sampling differs per shot (4.3). *)
Definition run_ideal (qc : QuantumCircuit) (shots : nat) (seed : Z) : Counts :=
  tally (map (bitstring qc) (sample (weights (final_state qc)) shots seed)).

End Engine.

Import Engine.

(* ================================================================== *)
(** ** The world the script runs in *)
(* ================================================================== *)

(** One row of the truth-table data frame. *)
Record Row : Type := mkRow {
  Mutation : Z;
  Timer : Z;
  Geosensing : Z;
  Quantum_Prob_Kill : Q;
  Classical_Kill : Z
}.

(** What [backend.run] is called with. [rq_seed_simulator] is the optional
    [seed_simulator] keyword of the call. *)
Record RunRequest : Type := mkRunRequest {
  rq_circuit : QuantumCircuit;
  rq_shots : nat;
  rq_noise_model : option NoiseModel;
  rq_seed_simulator : option Z
}.

(** The observable actions of the script, in the order they happen. *)
Inductive Event : Type :=
| BackendRun (rq : RunRequest)
| Print (text : string)
| PrintTable (rows : list Row)
| PrintItems (label : string) (items : list (string * nat))
| PltFigure (width height : nat)
| PltBar (positions : list nat) (heights : list nat) (tick_label : list string)
| PltXticks (rotation : nat) (ha : string)
| PltTitle (text : string)
| PltXlabel (text : string)
| PltYlabel (text : string)
| PltTightLayout
| PltShow
| OsMakedirs (path : string) (exist_ok : bool)
| PltSavefig (path : string) (dpi : nat) (bbox_inches : string).

(** The process-wide random source is a fixed but unknown stream of values,
    of which [drawn] have been consumed; [trace] is the history of actions. *)
Record World : Type := mkWorld {
  entropy : nat -> Z;
  drawn : nat;
  trace : list Event
}.

(** A statement of the script: runs in a world, returns or raises. *)
Definition M (A : Type) : Type := World -> result A * World.

Definition mret {A} (a : A) : M A := fun w => (Ok a, w).

Definition mbind {A B} (m : M A) (k : A -> M B) : M B :=
  fun w =>
    match m w with
    | (Ok a, w') => k a w'
    | (Raise e, w') => (Raise e, w')
    end.

Definition lift {A} (r : result A) : M A := fun w => (r, w).

Definition emit (ev : Event) : M unit :=
  fun w => (Ok tt, mkWorld (entropy w) (drawn w) (trace w ++ [ev])).

(** One value from the process-wide random source. *)
Definition ambient_draw : M Z :=
  fun w => (Ok (entropy w (drawn w)), mkWorld (entropy w) (S (drawn w)) (trace w)).

Declare Scope prog_scope.
Delimit Scope prog_scope with prog.
Notation "x <- m ;; k" := (mbind m (fun x => k))
  (at level 61, m at next level, right associativity) : prog_scope.
Notation "' pat <- m ;; k" := (mbind m (fun x => match x with pat => k end))
  (at level 61, pat pattern, m at next level, right associativity) : prog_scope.
Notation "m ;;; k" := (mbind m (fun _ => k))
  (at level 61, right associativity) : prog_scope.

(** [for x in xs: ys.append(body(x))] *)
Fixpoint for_each {A B} (xs : list A) (body : A -> M B) : M (list B) :=
  match xs with
  | [] => mret []
  | x :: rest =>
      (y <- body x ;; ys <- for_each rest body ;; mret (y :: ys))%prog
  end.

(** The simulator backend, as far as the script sees it: [transpile] rewrites
    a circuit for the backend, and [execute] produces the histogram of a run
    from the circuit, the shot count, the noise model and the seed. *)
Record Backend : Type := mkBackend {
  transpile : QuantumCircuit -> QuantumCircuit;
  execute : QuantumCircuit -> nat -> option NoiseModel -> Z -> Counts
}.

(** [backend.run(circuit, shots=..., noise_model=..., seed_simulator=...)
      .result().get_counts()]. Without [seed_simulator] the backend seeds the
    run from the process-wide random source. *)
Definition backend_run (backend : Backend) (circuit : QuantumCircuit) (shots : nat)
    (noise_model : option NoiseModel) (seed_simulator : option Z) : M Counts :=
  (emit (BackendRun (mkRunRequest circuit shots noise_model seed_simulator)) ;;;
   seed <- match seed_simulator with
           | Some s => mret s
           | None => ambient_draw
           end ;;
   mret (execute backend circuit shots noise_model seed))%prog.

(** The reference engine as a backend for noiseless runs: circuits are run
    as they are and a noise model, if any, is not applied. *)
Definition ideal_backend : Backend :=
  mkBackend (fun qc => qc) (fun qc shots _ seed => run_ideal qc shots seed).

(* ================================================================== *)
(** ** The script *)
(* ================================================================== *)

(** The qubit mapping of the kill circuit's docstring. *)
Definition q_M : nat := 0.
Definition q_T : nat := 1.
Definition q_G : nat := 2.
Definition q_ancilla : nat := 3.
Definition q_K : nat := 4.

(** [kill_rule_classical]: K = T OR M OR G. *)
Definition kill_rule_classical (mutation timer geosense : Z) : Z :=
  int (py_or (py_or mutation timer) geosense).

(** [build_reversible_kill_circuit] *)
Definition build_reversible_kill_circuit
  : result (QuantumCircuit * Register * Register) :=
  (let qr := QuantumRegister 5 "q" in
   let cr := ClassicalRegister 1 "c" in
   let qc := new_circuit qr cr in
   (* Step 1: initialise the kill bit *)
   q4 <- getitem qr 4 ;; qc <- reset qc q4 ;;
   (* Step 2: XOR the inputs into the output *)
   q0 <- getitem qr 0 ;; q4 <- getitem qr 4 ;; qc <- cx qc q0 q4 ;;
   q1 <- getitem qr 1 ;; q4 <- getitem qr 4 ;; qc <- cx qc q1 q4 ;;
   q2 <- getitem qr 2 ;; q4 <- getitem qr 4 ;; qc <- cx qc q2 q4 ;;
   (* Step 3: Toffoli gates on each pair of inputs *)
   q0 <- getitem qr 0 ;; q1 <- getitem qr 1 ;; q4 <- getitem qr 4 ;;
   qc <- ccx qc q0 q1 q4 ;;
   q0 <- getitem qr 0 ;; q2 <- getitem qr 2 ;; q4 <- getitem qr 4 ;;
   qc <- ccx qc q0 q2 q4 ;;
   q1 <- getitem qr 1 ;; q2 <- getitem qr 2 ;; q4 <- getitem qr 4 ;;
   qc <- ccx qc q1 q2 q4 ;;
   Ok (qc, qr, cr))%result.

(** The circuit one truth-table iteration hands to [transpile]: preparation,
    then the kill circuit, then the measurement of the kill qubit. *)
Definition truth_table_circuit (qc_base : QuantumCircuit) (qr cr : Register)
    (mutation timer geosense : Z) : result QuantumCircuit :=
  (let qc := copy qc_base in
   let prep := new_circuit qr cr in
   prep <- (if truthy mutation then q0 <- getitem qr 0 ;; x prep q0 else Ok prep) ;;
   prep <- (if truthy timer then q1 <- getitem qr 1 ;; x prep q1 else Ok prep) ;;
   prep <- (if truthy geosense then q2 <- getitem qr 2 ;; x prep q2 else Ok prep) ;;
   full <- compose prep qc ;;
   q4 <- getitem qr 4 ;; c0 <- getitem cr 0 ;;
   measure full q4 c0)%result.

(** [sum(cnt for bitstring, cnt in counts.items() if bitstring[0] == "1")] *)
Fixpoint kill_count (items : list (string * nat)) : result nat :=
  match items with
  | [] => Ok 0
  | (bitstring, cnt) :: rest =>
      (c <- str_first bitstring ;;
       n <- kill_count rest ;;
       Ok (if Ascii.eqb c "1" then cnt + n else n))%result
  end.

(** The body of the loop of [evaluate_truth_table_quantum]. *)
Definition truth_table_row (backend : Backend) (qc_base : QuantumCircuit)
    (qr cr : Register) (input : Z * Z * Z) : M Row :=
  (let '(mutation, timer, geosense) := input in
   full <- lift (truth_table_circuit qc_base qr cr mutation timer geosense) ;;
   let compiled := transpile backend full in
   counts <- backend_run backend compiled 1024 None None ;;
   let total_shots := sum (values counts) in
   kill <- lift (kill_count counts) ;;
   prob_kill <- lift (truediv (Z.of_nat kill) (Z.of_nat total_shots)) ;;
   mret (mkRow mutation timer geosense prob_kill
               (kill_rule_classical mutation timer geosense)))%prog.

(** [evaluate_truth_table_quantum] *)
Definition evaluate_truth_table_quantum (backend : Backend) : M (list Row) :=
  ('(qc_base, qr, cr) <- lift build_reversible_kill_circuit ;;
   rows <- for_each (product3 [0%Z; 1%Z]) (truth_table_row backend qc_base qr cr) ;;
   mret rows)%prog.

(** The circuit [superposition_counts] hands to [transpile]. *)
Definition superposition_circuit : result QuantumCircuit :=
  ('(qc_base, qr, _) <- build_reversible_kill_circuit ;;
   let cr := ClassicalRegister 5 "c" in
   let prep := new_circuit qr cr in
   q0 <- getitem qr 0 ;; q1 <- getitem qr 1 ;; q2 <- getitem qr 2 ;;
   prep <- h prep [q0; q1; q2] ;;
   full <- compose prep qc_base ;;
   q4 <- getitem qr 4 ;; q3 <- getitem qr 3 ;; q2 <- getitem qr 2 ;;
   q1 <- getitem qr 1 ;; q0 <- getitem qr 0 ;;
   measure_each full [q4; q3; q2; q1; q0] (range 5))%result.

(** [superposition_counts(noisy=False, noise_model=None)] *)
Definition superposition_counts (backend : Backend) (noisy : bool)
    (noise_model : option NoiseModel) : M Counts :=
  (full <- lift superposition_circuit ;;
   let compiled := transpile backend full in
   backend_run backend compiled 4096 (if noisy then noise_model else None) None)%prog.

(** [build_simple_noise_model(p1=0.002, p2=0.02, readout_err=0.03)] *)
Definition build_simple_noise_model (p1 p2 readout_err : Q) : NoiseModel :=
  let noise_model := empty_noise_model in
  let noise_model :=
    add_all_qubit_quantum_error noise_model (depolarizing_error p1 1)
      ["u1"; "u2"; "u3"; "x"; "h"]%string in
  let noise_model :=
    add_all_qubit_quantum_error noise_model (depolarizing_error p2 2) ["cx"%string] in
  let noise_model :=
    add_all_qubit_quantum_error noise_model
      (depolarizing_error (p2 * (15 # 10))%Q 3) ["ccx"%string] in
  let readout :=
    mkReadoutError [[(1 - readout_err)%Q; readout_err];
                    [readout_err; (1 - readout_err)%Q]] in
  add_all_qubit_readout_error noise_model readout.

Definition default_p1 : Q := (2 # 1000)%Q.
Definition default_p2 : Q := (2 # 100)%Q.
Definition default_readout_err : Q := (3 # 100)%Q.

(** The file name [plot_counts] saves under. *)
Definition plot_path (title : string) : string :=
  ("plots/" ++ replace " " "_" title ++ ".png")%string.

(** [plot_counts(counts_dict, title, save=False)]. [None] for [counts_dict]
    is Python's [None]; it and the empty dict are the falsy arguments. *)
Definition plot_counts (counts_dict : option Counts) (title : string) (save : bool)
  : M unit :=
  match counts_dict with
  | None | Some [] => emit (Print ("No data to plot for " ++ title)%string)
  | Some counts =>
      (let labels := keys counts in
       let values := values counts in
       emit (PltFigure 8 4) ;;;
       emit (PltBar (range (List.length labels)) values labels) ;;;
       emit (PltXticks 45 "right") ;;;
       emit (PltTitle title) ;;;
       emit (PltXlabel "Output state (bitstring)") ;;;
       emit (PltYlabel "Counts") ;;;
       emit PltTightLayout ;;;
       emit PltShow ;;;
       if save then
         emit (OsMakedirs "plots" true) ;;;
         emit (PltSavefig (plot_path title) 300 "tight") ;;;
         emit (Print ("Saved: " ++ plot_path title)%string)
       else mret tt)%prog
  end.

(** The [__main__] block. The pictographs and blank lines that decorate
    the printed headings are left out of the texts. *)
Definition main (backend : Backend) : M unit :=
  (emit (Print "1 Classical vs Quantum truth table (ideal simulator):") ;;;
   df <- evaluate_truth_table_quantum backend ;;
   emit (PrintTable df) ;;;
   emit (Print "2 Quantum superposition counts (ideal):") ;;;
   counts <- superposition_counts backend false None ;;
   emit (PrintItems "Sample:" (firstn 5 counts)) ;;;
   plot_counts (Some counts) "Quantum Superposition (Ideal)" false ;;;
   emit (Print "3 Quantum superposition counts (noisy):") ;;;
   let noise := build_simple_noise_model default_p1 default_p2 default_readout_err in
   noisy_counts <- superposition_counts backend true (Some noise) ;;
   emit (PrintItems "Sample:" (firstn 5 noisy_counts)) ;;;
   plot_counts (Some noisy_counts) "Quantum Superposition (Noisy)" false ;;;
   emit (Print "All simulations completed successfully."))%prog.

(* ================================================================== *)
(** ** Vocabulary of the statements *)
(* ================================================================== *)

(** The instruction list of the kill circuit, over the docstring's names. *)
Definition kill_ops : list Instruction :=
  [Reset q_K; CX q_M q_K; CX q_T q_K; CX q_G q_K;
   CCX q_M q_T q_K; CCX q_M q_G q_K; CCX q_T q_G q_K].

Definition kill_circuit : QuantumCircuit := mkCircuit 5 1 kill_ops.

(** X on each input qubit whose input is truthy. *)
Definition prep_ops (input : Z * Z * Z) : list Instruction :=
  let '(mutation, timer, geosense) := input in
  (if truthy mutation then [X q_M] else []) ++
  (if truthy timer then [X q_T] else []) ++
  (if truthy geosense then [X q_G] else []).

Definition truth_table_full (input : Z * Z * Z) : QuantumCircuit :=
  mkCircuit 5 1 (prep_ops input ++ kill_ops ++ [Measure q_K 0]).

Definition superposition_full : QuantumCircuit :=
  mkCircuit 5 5
    ([H q_M; H q_T; H q_G] ++ kill_ops ++
     [Measure q_K 0; Measure q_ancilla 1; Measure q_G 2; Measure q_T 3;
      Measure q_M 4]).

(** The eight input triples in the order [product] yields them. *)
Definition inputs8 : list (Z * Z * Z) :=
  [(0, 0, 0); (0, 0, 1); (0, 1, 0); (0, 1, 1);
   (1, 0, 0); (1, 0, 1); (1, 1, 0); (1, 1, 1)]%Z.

(** Total count of the bitstrings whose first character is '1'. *)
Definition leads_with_one (key : string) : bool :=
  match key with
  | String c _ => Ascii.eqb c "1"
  | EmptyString => false
  end.

Definition kill_mass (counts : Counts) : nat :=
  sum (values (filter (fun kv => leads_with_one (fst kv)) counts)).

(** The world after [k] more draws from the random source and the events
    [evs]. *)
Definition after (w : World) (k : nat) (evs : list Event) : World :=
  mkWorld (entropy w) (drawn w + k) (trace w ++ evs).

(** [m] run in [w] returns [a], having drawn [k] values and caused [evs]. *)
Definition yields {A} (m : M A) (w : World) (a : A) (k : nat) (evs : list Event)
  : Prop :=
  m w = (Ok a, after w k evs).

(** The simulator invocations among some events. *)
Definition backend_runs (evs : list Event) : list RunRequest :=
  flat_map (fun ev => match ev with BackendRun rq => [rq] | _ => [] end) evs.

(** The histogram invariants of the data model: the counts add up to the
    shots asked for, and every bitstring has one character per classical
    bit. A backend is well behaved when its histograms satisfy them and
    transpiling keeps the classical bits. *)
Definition histogram_ok (clbits shots : nat) (counts : Counts) : Prop :=
  sum (values counts) = shots /\
  Forall (fun key => String.length key = clbits) (keys counts).

Definition well_behaved (b : Backend) : Prop :=
  (forall qc, num_clbits (transpile b qc) = num_clbits qc) /\
  (forall qc shots nm seed,
      histogram_ok (num_clbits qc) shots (execute b qc shots nm seed)).

(** What the truth-table driver asks of the backend for one input, and the
    row it makes of the answer when the run is the [k]-th from world [w]. *)
Definition truth_table_request (b : Backend) (input : Z * Z * Z) : RunRequest :=
  mkRunRequest (transpile b (truth_table_full input)) 1024 None None.

Definition truth_table_counts (b : Backend) (ent : nat -> Z) (k : nat)
    (input : Z * Z * Z) : Counts :=
  execute b (transpile b (truth_table_full input)) 1024 None (ent k).

Definition expected_row (b : Backend) (ent : nat -> Z) (k : nat)
    (input : Z * Z * Z) : Row :=
  let '(mutation, timer, geosense) := input in
  mkRow mutation timer geosense
        (Qred (Qdiv (inject_Z (Z.of_nat (kill_mass (truth_table_counts b ent k input))))
                    (inject_Z 1024)))
        (kill_rule_classical mutation timer geosense).

(** [f] mapped over a list together with the position, counted from [k]. *)
Fixpoint map_from {A B} (f : nat -> A -> B) (k : nat) (xs : list A) : list B :=
  match xs with
  | [] => []
  | x :: rest => f k x :: map_from f (S k) rest
  end.

Definition superposition_request (b : Backend) (nm : option NoiseModel) : RunRequest :=
  mkRunRequest (transpile b superposition_full) 4096 nm None.

(** An event that is not a seeded simulator invocation. *)
Definition unseeded (ev : Event) : Prop :=
  match ev with
  | BackendRun rq => rq_seed_simulator rq = None
  | _ => True
  end.

(** The boolean function the gate list computes into the kill qubit: the
    parity of the inputs, then one correction per pair of inputs. *)
Definition parity_with_pair_corrections (m t g : bool) : bool :=
  xorb (xorb (xorb (xorb (xorb m t) g) (m && t)) (m && g)) (t && g).

Definition bit_of (n : Z) : bool := truthy n.

Definition kill_bit_of (input : Z * Z * Z) : bool :=
  let '(m, t, g) := input in
  parity_with_pair_corrections (bit_of m) (bit_of t) (bit_of g).

(** The events of one [plot_counts] call. *)
Definition drawing_events (counts : Counts) (title : string) : list Event :=
  [PltFigure 8 4;
   PltBar (range (List.length (keys counts))) (values counts) (keys counts);
   PltXticks 45 "right"; PltTitle title;
   PltXlabel "Output state (bitstring)"; PltYlabel "Counts";
   PltTightLayout; PltShow].

Definition saving_events (title : string) : list Event :=
  [OsMakedirs "plots" true;
   PltSavefig (plot_path title) 300 "tight";
   Print ("Saved: " ++ plot_path title)%string].

Definition plot_events (counts_dict : option Counts) (title : string) (save : bool)
  : list Event :=
  match counts_dict with
  | None | Some [] => [Print ("No data to plot for " ++ title)%string]
  | Some counts =>
      drawing_events counts title ++ (if save then saving_events title else [])
  end.

(** Whatever [m] does, it only adds events, none of them a seeded run. *)
Definition seedless {A} (m : M A) : Prop :=
  forall w, exists k evs, snd (m w) = after w k evs /\ Forall unseeded evs.

Definition default_noise_model : NoiseModel :=
  build_simple_noise_model default_p1 default_p2 default_readout_err.

(** A concrete world: the random source yields 0, 1, 2, ... *)
Definition world0 : World := mkWorld (fun n => Z.of_nat n) 0 [].

(** Closes a goal [amp (tabulate ..) j = 0] once [amp_tabulate] has been
    unfolded: case analysis on the tests, then the hypothesis [Hz] that the
    source state has no amplitude where the bit is set, [Hflip] rewriting
    the bit of a flipped index. *)
Ltac frame_step Hz Hflip :=
  repeat match goal with
         | |- context [if ?c then _ else _] => destruct c
         end;
  rewrite ?Hz by (rewrite ?Hflip; assumption); reflexivity.

(* ================================================================== *)
(** ** Vocabulary of the further properties *)
(* ================================================================== *)



(** Some key of the histogram is the empty string. *)
Definition has_empty_key (counts : Counts) : bool :=
  existsb (fun key => String.eqb key "") (keys counts).

(** What one truth-table iteration makes of the histogram it receives for
    [input] when its seed is the [k]-th value of the random source. *)
Definition row_outcome (b : Backend) (ent : nat -> Z) (k : nat)
    (input : Z * Z * Z) : result Row :=
  let counts := truth_table_counts b ent k input in
  let '(mutation, timer, geosense) := input in
  if has_empty_key counts then Raise IndexError
  else if sum (values counts) =? 0 then Raise ZeroDivisionError
  else Ok (mkRow mutation timer geosense
                 (Qred (Qdiv (inject_Z (Z.of_nat (kill_mass counts)))
                             (inject_Z (Z.of_nat (sum (values counts))))))
                 (kill_rule_classical mutation timer geosense)).

(** The simulator invocations of a complete run of the main program. *)
Definition main_requests (b : Backend) : list RunRequest :=
  map (truth_table_request b) inputs8 ++
  [superposition_request b None; superposition_request b (Some default_noise_model)].

(** [m] only adds events, all of which satisfy [P]. *)
Definition confined {A} (P : Event -> Prop) (m : M A) : Prop :=
  forall w, exists k evs, snd (m w) = after w k evs /\ Forall P evs.

(** The events that create a directory or write a file. *)
Definition touches_files (ev : Event) : bool :=
  match ev with
  | OsMakedirs _ _ | PltSavefig _ _ _ => true
  | _ => false
  end.

Definition is_measure (i : Instruction) : bool :=
  match i with
  | Measure _ _ => true
  | _ => false
  end.

(** No gate follows a measurement. *)
Fixpoint measures_terminal (ops : list Instruction) : bool :=
  match ops with
  | [] => true
  | i :: rest => if is_measure i then forallb is_measure rest else measures_terminal rest
  end.

(** The classical bits written, in order. *)
Definition measured_clbits (ops : list Instruction) : list nat :=
  flat_map (fun i => match i with Measure _ c => [c] | _ => [] end) ops.

(** The state with all amplitude on basis state [idx]. *)
Definition basis_state (n idx : nat) : StateVector :=
  tabulate (2 ^ n) (fun i => if i =? idx then 1%Z else 0%Z).

Definition bit_weight (b : bool) (q : nat) : nat := if b then 2 ^ q else 0.

(** The basis state in which the input qubits hold the truth values of the
    inputs, the ancilla is 0 and the kill qubit holds [k]. *)
Definition register_index (input : Z * Z * Z) (k : bool) : nat :=
  let '(m, t, g) := input in
  bit_weight (bit_of m) q_M + bit_weight (bit_of t) q_T + bit_weight (bit_of g) q_G
  + bit_weight k q_K.

(** The histogram key of the superposition run for input bits [m], [t],
    [g]: the five classical bits from the highest index down, that is
    M, T, G, the ancilla and K. *)
Definition superposition_key (m t g : bool) : string :=
  string_of_list_ascii
    [bit_char m; bit_char t; bit_char g; "0"%char;
     bit_char (parity_with_pair_corrections m t g)].

Definition all_bits : list (bool * bool * bool) := product3 [false; true].

(* ================================================================== *)
(** ** Running statements: sequencing lemmas *)
(* ================================================================== *)

Lemma after_after (w : World) k1 e1 k2 e2 :
  after (after w k1 e1) k2 e2 = after w (k1 + k2) (e1 ++ e2).
Proof.
  unfold after; simpl. f_equal.
  - lia.
  - now rewrite app_assoc.
Qed.

Lemma yields_ret {A} (a : A) w : yields (mret a) w a 0 [].
Proof.
  unfold yields, mret, after. destruct w as [ent d tr]; simpl.
  now rewrite Nat.add_0_r, app_nil_r.
Qed.

Lemma yields_lift {A} (r : result A) (a : A) w :
  r = Ok a -> yields (lift r) w a 0 [].
Proof. intros ->. apply (yields_ret a w). Qed.

Lemma yields_emit ev w : yields (emit ev) w tt 0 [ev].
Proof.
  unfold yields, emit, after. now rewrite Nat.add_0_r.
Qed.

Lemma yields_ambient_draw w :
  yields ambient_draw w (entropy w (drawn w)) 1 [].
Proof.
  unfold yields, ambient_draw, after.
  now rewrite Nat.add_1_r, app_nil_r.
Qed.

Lemma yields_bind {A B} (m : M A) (f : A -> M B) w a k1 e1 b k2 e2 :
  yields m w a k1 e1 ->
  yields (f a) (after w k1 e1) b k2 e2 ->
  yields (mbind m f) w b (k1 + k2) (e1 ++ e2).
Proof.
  unfold yields, mbind. intros -> ->. now rewrite after_after.
Qed.

(** The same, with the totals named, for use with [eapply]. *)
Lemma yields_bind' {A B} (m : M A) (f : A -> M B) w a k1 e1 b k2 e2 k e :
  yields m w a k1 e1 ->
  yields (f a) (after w k1 e1) b k2 e2 ->
  k = k1 + k2 -> e = e1 ++ e2 ->
  yields (mbind m f) w b k e.
Proof. intros Hm Hf -> ->. eapply yields_bind; eauto. Qed.

Lemma yields_backend_run b qc shots nm w :
  yields (backend_run b qc shots nm None) w
         (execute b qc shots nm (entropy w (drawn w))) 1
         [BackendRun (mkRunRequest qc shots nm None)].
Proof.
  unfold yields, backend_run, mbind, emit, ambient_draw, mret, after; simpl.
  now rewrite Nat.add_1_r.
Qed.

Lemma yields_for_each {A B} (body : A -> M B) (f : nat -> A -> B)
    (ev : A -> Event) (ent : nat -> Z) :
  (forall x w, entropy w = ent -> yields (body x) w (f (drawn w) x) 1 [ev x]) ->
  forall xs w, entropy w = ent ->
    yields (for_each xs body) w (map_from f (drawn w) xs) (List.length xs) (map ev xs).
Proof.
  intros Hbody xs. induction xs as [|x rest IH]; intros w Hent; simpl.
  - apply yields_ret.
  - assert (E : S (drawn w) = drawn (after w 1 [ev x])) by (simpl; lia).
    rewrite E.
    eapply yields_bind'; [apply Hbody; exact Hent | | reflexivity | reflexivity].
    eapply yields_bind'.
    + apply IH. exact Hent.
    + apply yields_ret.
    + now rewrite Nat.add_0_r.
    + now rewrite app_nil_r.
Qed.

(* ================================================================== *)
(** ** Circuit construction *)
(* ================================================================== *)

Lemma build_reversible_kill_circuit_eq :
  build_reversible_kill_circuit =
  Ok (kill_circuit, QuantumRegister 5 "q", ClassicalRegister 1 "c").
Proof. reflexivity. Qed.

Lemma truth_table_circuit_eq (mutation timer geosense : Z) :
  truth_table_circuit kill_circuit (QuantumRegister 5 "q") (ClassicalRegister 1 "c")
                      mutation timer geosense
  = Ok (truth_table_full (mutation, timer, geosense)).
Proof.
  unfold truth_table_circuit, truth_table_full, prep_ops.
  destruct (truthy mutation), (truthy timer), (truthy geosense); reflexivity.
Qed.

Lemma superposition_circuit_eq : superposition_circuit = Ok superposition_full.
Proof. reflexivity. Qed.

Lemma product3_bits : product3 [0%Z; 1%Z] = inputs8.
Proof. reflexivity. Qed.

(** The circuits handed to the simulator satisfy the circuit invariant:
    every operand names a bit of the circuit. *)
Lemma circuits_well_formed :
  well_formed kill_circuit = true /\
  (forall input, well_formed (truth_table_full input) = true) /\
  well_formed superposition_full = true.
Proof.
  split; [reflexivity|]. split; [|reflexivity].
  intros [[m t] g]. unfold truth_table_full, prep_ops.
  destruct (truthy m), (truthy t), (truthy g); reflexivity.
Qed.

(* ================================================================== *)
(** ** The kill probability computed from a histogram *)
(* ================================================================== *)

Lemma kill_count_eq (counts : Counts) :
  Forall (fun key => key <> EmptyString) (keys counts) ->
  kill_count counts = Ok (kill_mass counts).
Proof.
  unfold kill_mass.
  induction counts as [|[key cnt] rest IH]; intros Hkeys; simpl.
  - reflexivity.
  - inversion Hkeys as [|? ? Hkey Hrest]; subst.
    destruct key as [|c key']; [now contradiction Hkey|]. simpl.
    rewrite (IH Hrest). simpl.
    destruct (Ascii.eqb c "1"); reflexivity.
Qed.

Lemma histogram_keys_nonempty clbits shots counts :
  0 < clbits -> histogram_ok clbits shots counts ->
  Forall (fun key => key <> EmptyString) (keys counts).
Proof.
  intros Hpos [_ Hkeys]. eapply Forall_impl; [|exact Hkeys].
  intros key Hlen ->. simpl in Hlen. lia.
Qed.

Lemma truediv_nonzero (a b : Z) :
  b <> 0%Z -> truediv a b = Ok (Qred (Qdiv (inject_Z a) (inject_Z b))).
Proof.
  intros Hb. unfold truediv. destruct (Z.eqb_spec b 0); [contradiction|reflexivity].
Qed.

(* ================================================================== *)
(** ** The drivers, run against a well-behaved backend *)
(* ================================================================== *)

Section Drivers.

Variable backend : Backend.
Hypothesis backend_ok : well_behaved backend.

Lemma truth_table_histogram ent k input :
  histogram_ok 1 1024 (truth_table_counts backend ent k input).
Proof.
  destruct backend_ok as [Htr Hex]. unfold truth_table_counts.
  specialize (Hex (transpile backend (truth_table_full input)) 1024 None (ent k)).
  now rewrite Htr in Hex.
Qed.

Lemma yields_truth_table_row input w :
  yields (truth_table_row backend kill_circuit (QuantumRegister 5 "q")
                          (ClassicalRegister 1 "c") input) w
         (expected_row backend (entropy w) (drawn w) input) 1
         [BackendRun (truth_table_request backend input)].
Proof.
  destruct input as [[mutation timer] geosense].
  pose proof (truth_table_histogram (entropy w) (drawn w) (mutation, timer, geosense))
    as Hhist.
  unfold truth_table_row.
  eapply yields_bind';
    [apply yields_lift, truth_table_circuit_eq | | reflexivity | reflexivity].
  eapply yields_bind'; [apply yields_backend_run | | reflexivity | reflexivity].
  simpl entropy; simpl drawn. rewrite Nat.add_0_r.
  fold (truth_table_counts backend (entropy w) (drawn w) (mutation, timer, geosense)).
  assert (Hkill : kill_count (truth_table_counts backend (entropy w) (drawn w)
                                (mutation, timer, geosense))
                  = Ok (kill_mass (truth_table_counts backend (entropy w) (drawn w)
                                     (mutation, timer, geosense)))).
  { apply kill_count_eq. eapply histogram_keys_nonempty; [|exact Hhist]. lia. }
  eapply yields_bind'; [apply yields_lift, Hkill | | reflexivity | reflexivity].
  destruct Hhist as [Hsum _]. rewrite Hsum.
  eapply yields_bind';
    [apply yields_lift, truediv_nonzero; discriminate
    | apply yields_ret | reflexivity | reflexivity].
Qed.

Lemma yields_evaluate_truth_table_quantum w :
  yields (evaluate_truth_table_quantum backend) w
         (map_from (expected_row backend (entropy w)) (drawn w) inputs8) 8
         (map (fun input => BackendRun (truth_table_request backend input)) inputs8).
Proof.
  unfold evaluate_truth_table_quantum.
  eapply yields_bind';
    [apply yields_lift, build_reversible_kill_circuit_eq | | reflexivity | reflexivity].
  cbv beta iota.
  rewrite product3_bits.
  pose proof (@yields_for_each _ _
    (truth_table_row backend kill_circuit (QuantumRegister 5 "q")
                     (ClassicalRegister 1 "c"))
    (expected_row backend (entropy w))
    (fun input => BackendRun (truth_table_request backend input))
    (entropy w)) as Hloop.
  assert (Hbody : forall x w0, entropy w0 = entropy w ->
            yields (truth_table_row backend kill_circuit (QuantumRegister 5 "q")
                      (ClassicalRegister 1 "c") x) w0
                   (expected_row backend (entropy w) (drawn w0) x) 1
                   [BackendRun (truth_table_request backend x)]).
  { intros x w0 <-. apply yields_truth_table_row. }
  specialize (Hloop Hbody inputs8 (after w 0 []) eq_refl).
  simpl drawn in Hloop. rewrite Nat.add_0_r in Hloop.
  eapply yields_bind'; [exact Hloop | apply yields_ret | reflexivity | ].
  now rewrite app_nil_r.
Qed.

End Drivers.

Lemma yields_superposition_counts backend noisy noise_model w :
  yields (superposition_counts backend noisy noise_model) w
         (execute backend (transpile backend superposition_full) 4096
                  (if noisy then noise_model else None) (entropy w (drawn w))) 1
         [BackendRun (superposition_request backend (if noisy then noise_model else None))].
Proof.
  unfold superposition_counts.
  eapply yields_bind';
    [apply yields_lift, superposition_circuit_eq | | reflexivity | reflexivity].
  pose proof (yields_backend_run backend (transpile backend superposition_full) 4096
                (if noisy then noise_model else None) (after w 0 [])) as Hrun.
  simpl entropy in Hrun; simpl drawn in Hrun. rewrite Nat.add_0_r in Hrun.
  exact Hrun.
Qed.

(* ================================================================== *)
(** ** The reference engine: histograms *)
(* ================================================================== *)

Lemma string_of_list_ascii_length (cs : list ascii) :
  String.length (string_of_list_ascii cs) = List.length cs.
Proof. induction cs as [|c cs IH]; simpl; congruence. Qed.

Lemma bitstring_length qc basis :
  String.length (bitstring qc basis) = num_clbits qc.
Proof.
  unfold bitstring.
  now rewrite string_of_list_ascii_length, length_map, length_rev, length_seq.
Qed.

Lemma sample_length ws shots s : List.length (sample ws shots s) = shots.
Proof.
  revert s. induction shots as [|n IH]; intros s; simpl; [reflexivity|].
  now rewrite IH.
Qed.

Lemma increment_sum key counts :
  sum (values (increment key counts)) = S (sum (values counts)).
Proof.
  unfold values, sum.
  induction counts as [|[k n] rest IH]; simpl; [reflexivity|].
  destruct (String.eqb key k); simpl; [reflexivity|].
  rewrite IH. lia.
Qed.

Lemma increment_keys (P : string -> Prop) key counts :
  P key -> Forall P (keys counts) -> Forall P (keys (increment key counts)).
Proof.
  intros Hkey. induction counts as [|[k n] rest IH]; intros Hall; simpl.
  - constructor; [exact Hkey|constructor].
  - inversion Hall as [|? ? Hk Hrest]; subst.
    destruct (String.eqb key k); simpl; constructor; auto.
Qed.

Lemma fold_increment_sum outcomes counts :
  sum (values (fold_left (fun cs key => increment key cs) outcomes counts))
  = sum (values counts) + List.length outcomes.
Proof.
  revert counts. induction outcomes as [|o rest IH]; intros counts; simpl.
  - lia.
  - rewrite IH, increment_sum. lia.
Qed.

Lemma fold_increment_keys (P : string -> Prop) outcomes counts :
  Forall P outcomes -> Forall P (keys counts) ->
  Forall P (keys (fold_left (fun cs key => increment key cs) outcomes counts)).
Proof.
  revert counts. induction outcomes as [|o rest IH]; intros counts Houts Hkeys; simpl.
  - exact Hkeys.
  - inversion Houts; subst. apply IH; [assumption|]. now apply increment_keys.
Qed.

Lemma run_ideal_histogram qc shots seed :
  histogram_ok (num_clbits qc) shots (run_ideal qc shots seed).
Proof.
  unfold run_ideal, tally. split.
  - rewrite fold_increment_sum. simpl. now rewrite length_map, sample_length.
  - apply fold_increment_keys; [|constructor].
    apply Forall_forall. intros key Hin.
    apply in_map_iff in Hin as [basis [<- _]]. apply bitstring_length.
Qed.

Lemma ideal_backend_well_behaved : well_behaved ideal_backend.
Proof.
  split; [reflexivity|]. intros qc shots nm seed. apply run_ideal_histogram.
Qed.

(** A state whose weights add up to 1 is a basis state: every shot then
    yields the same outcome, whatever the seed. *)
Lemma sample_unit_total ws shots s :
  total ws = 1%Z -> sample ws shots s = repeat (pick ws 0%Z) shots.
Proof.
  intros Hone. revert s. induction shots as [|n IH]; intros s; simpl; [reflexivity|].
  rewrite IH. unfold draw. now rewrite Hone, Z.mod_1_r.
Qed.

Lemma run_ideal_basis_state qc shots seed :
  total (weights (final_state qc)) = 1%Z ->
  run_ideal qc shots seed
  = tally (repeat (bitstring qc (pick (weights (final_state qc)) 0%Z)) shots).
Proof.
  intros Hone. unfold run_ideal. rewrite sample_unit_total by exact Hone. now rewrite map_repeat.
Qed.

(* ================================================================== *)
(** ** The kill circuit on classical inputs *)
(* ================================================================== *)


(** The gate list agrees with the three-input OR except when all three
    inputs are set. *)
Lemma parity_with_pair_corrections_vs_or (m t g : bool) :
  parity_with_pair_corrections m t g = (m || t || g) && negb (m && t && g).
Proof. destruct m, t, g; reflexivity. Qed.

Lemma ideal_truth_table_counts ent k input :
  In input inputs8 ->
  truth_table_counts ideal_backend ent k input
  = [(String (bit_char (kill_bit_of input)) EmptyString, 1024)].
Proof.
  intros Hin. unfold truth_table_counts. cbn [execute transpile ideal_backend].
  simpl in Hin.
  repeat (destruct Hin as [<- | Hin];
          [rewrite run_ideal_basis_state by (vm_compute; reflexivity);
           vm_compute; reflexivity|]).
  contradiction.
Qed.

Lemma ideal_expected_row ent k input :
  In input inputs8 ->
  expected_row ideal_backend ent k input
  = let '(m, t, g) := input in
    mkRow m t g (if kill_bit_of input then 1%Q else 0%Q) (kill_rule_classical m t g).
Proof.
  intros Hin. unfold expected_row. rewrite ideal_truth_table_counts by exact Hin.
  simpl in Hin.
  repeat (destruct Hin as [<- | Hin]; [vm_compute; reflexivity|]).
  contradiction.
Qed.

(* ================================================================== *)
(** ** The reference engine: qubits an instruction does not touch *)
(* ================================================================== *)

Lemma amp_tabulate len f i :
  amp (tabulate len f) i = if i <? len then f i else 0%Z.
Proof.
  unfold amp, tabulate. destruct (Nat.ltb_spec i len) as [Hlt|Hge].
  - rewrite (nth_indep _ 0%Z (f 0)) by now rewrite length_map, length_seq.
    now rewrite map_nth, seq_nth.
  - apply nth_overflow. now rewrite length_map, length_seq.
Qed.

Lemma testbit_flip t i q : q <> t -> Nat.testbit (flip t i) q = Nat.testbit i q.
Proof.
  intros Hneq. unfold flip. rewrite Nat.lxor_spec, Nat.pow2_bits_eqb.
  destruct (Nat.eqb_spec t q) as [->|_]; [contradiction|]. apply xorb_false_r.
Qed.

Lemma qubit_zero_zero_state q n : qubit_zero q (zero_state n).
Proof.
  intros i Hbit. unfold amp, zero_state. destruct i as [|i].
  - now rewrite Nat.bits_0 in Hbit.
  - simpl. apply nth_repeat.
Qed.


Lemma qubit_zero_apply q i sv :
  ~ In q (qubits_of i) -> qubit_zero q sv -> qubit_zero q (apply i sv).
Proof.
  intros Hout Hz j Hbit.
  destruct i as [t|t|t|c t|c1 c2 t|t c]; simpl apply; try (now apply Hz);
    assert (Hneq : q <> t) by (intros ->; apply Hout; simpl; tauto).
  - unfold apply_Reset.
    destruct (forallb _ _).
    + rewrite amp_tabulate. destruct (j <? List.length sv); [|reflexivity].
      destruct (Nat.eqb_spec j 0) as [->|_]; [|reflexivity].
      now rewrite Nat.bits_0 in Hbit.
    + rewrite amp_tabulate. frame_step Hz (testbit_flip j Hneq).
  - unfold apply_X. rewrite amp_tabulate. frame_step Hz (testbit_flip j Hneq).
  - unfold apply_H.
    assert (Hf : amp sv (flip t j) = 0%Z)
      by (apply Hz; rewrite (testbit_flip _ Hneq); assumption).
    rewrite amp_tabulate, Hf, (Hz j Hbit).
    destruct (j <? List.length sv), (Nat.testbit j t); reflexivity.
  - unfold apply_CX. rewrite amp_tabulate. frame_step Hz (testbit_flip j Hneq).
  - unfold apply_CCX. rewrite amp_tabulate. frame_step Hz (testbit_flip j Hneq).
Qed.

Lemma qubit_zero_trajectory q ops :
  Forall (fun i => ~ In q (qubits_of i)) ops ->
  forall sv, qubit_zero q sv -> Forall (qubit_zero q) (trajectory ops sv).
Proof.
  induction 1 as [|i rest Hi _ IH]; intros sv Hz; simpl.
  - constructor; [exact Hz|constructor].
  - constructor; [exact Hz|]. apply IH. now apply qubit_zero_apply.
Qed.

(** The truth-table circuits, as the driver builds them, leave qubit 3
    alone; and on the engine every state they pass through is a basis
    state (weights adding up to 1). *)
Lemma truth_table_full_avoids_ancilla input :
  Forall (fun i => ~ In q_ancilla (qubits_of i)) (data (truth_table_full input)).
Proof.
  destruct input as [[m t] g]. unfold truth_table_full, prep_ops; simpl data.
  destruct (truthy m), (truthy t), (truthy g); simpl;
    repeat constructor; unfold q_ancilla, q_M, q_T, q_G, q_K; simpl; lia.
Qed.

Lemma truth_table_full_basis_states input :
  forallb (fun sv => (total (weights sv) =? 1)%Z)
          (trajectory (data (truth_table_full input)) (zero_state 5)) = true.
Proof.
  destruct input as [[m t] g]. unfold truth_table_full, prep_ops; simpl data.
  destruct (truthy m), (truthy t), (truthy g); vm_compute; reflexivity.
Qed.

(* ================================================================== *)
(** ** Plotting *)
(* ================================================================== *)


Lemma yields_plot_counts counts_dict title save w :
  yields (plot_counts counts_dict title save) w tt 0 (plot_events counts_dict title save).
Proof.
  unfold yields, after. rewrite Nat.add_0_r.
  destruct counts_dict as [[|kv rest]|]; try reflexivity.
  destruct save; unfold plot_counts, plot_events, mbind, emit, mret; simpl;
    repeat rewrite <- app_assoc; reflexivity.
Qed.

Lemma backend_runs_app evs1 evs2 :
  backend_runs (evs1 ++ evs2) = backend_runs evs1 ++ backend_runs evs2.
Proof. apply flat_map_app. Qed.

Lemma backend_runs_map (rqs : list RunRequest) :
  backend_runs (map BackendRun rqs) = rqs.
Proof. induction rqs as [|rq rest IH]; simpl; congruence. Qed.

Lemma backend_runs_plot_events counts_dict title save :
  backend_runs (plot_events counts_dict title save) = [].
Proof. destruct counts_dict as [[|kv rest]|], save; reflexivity. Qed.

Lemma replace_length old new s :
  String.length (replace old new s) = String.length s.
Proof. induction s as [|c s IH]; simpl; congruence. Qed.


(* ================================================================== *)
(** ** No invocation passes a seed *)
(* ================================================================== *)


Lemma seedless_ret {A} (a : A) : seedless (mret a).
Proof.
  intros w. exists 0, []. split; [|constructor].
  unfold after; simpl. now rewrite Nat.add_0_r, app_nil_r; destruct w.
Qed.

Lemma seedless_lift {A} (r : result A) : seedless (lift r).
Proof.
  intros w. destruct (seedless_ret tt w) as (k & evs & Hw & Hall). now exists k, evs.
Qed.

Lemma seedless_emit ev : unseeded ev -> seedless (emit ev).
Proof.
  intros Hev w. exists 0, [ev]. split; [|now repeat constructor].
  unfold after, emit; simpl. now rewrite Nat.add_0_r.
Qed.

Lemma seedless_bind {A B} (m : M A) (f : A -> M B) :
  seedless m -> (forall a, seedless (f a)) -> seedless (mbind m f).
Proof.
  intros Hm Hf w. unfold mbind.
  destruct (Hm w) as (k1 & e1 & H1 & Hall1).
  destruct (m w) as [[a|e] w1]; simpl in H1; subst w1.
  - destruct (Hf a (after w k1 e1)) as (k2 & e2 & H2 & Hall2).
    exists (k1 + k2), (e1 ++ e2). rewrite H2, after_after. split; [reflexivity|].
    apply Forall_app; now split.
  - now exists k1, e1.
Qed.

Lemma seedless_for_each {A B} (body : A -> M B) xs :
  (forall x, seedless (body x)) -> seedless (for_each xs body).
Proof.
  intros Hbody. induction xs as [|x rest IH]; simpl.
  - apply seedless_ret.
  - apply seedless_bind; [apply Hbody|]. intros y.
    apply seedless_bind; [exact IH|]. intros ys. apply seedless_ret.
Qed.

Lemma seedless_backend_run b qc shots nm : seedless (backend_run b qc shots nm None).
Proof.
  intros w. exists 1, [BackendRun (mkRunRequest qc shots nm None)].
  rewrite (yields_backend_run b qc shots nm w). split; [reflexivity|].
  now repeat constructor.
Qed.

Lemma seedless_plot_counts counts_dict title save :
  seedless (plot_counts counts_dict title save).
Proof.
  intros w. exists 0, (plot_events counts_dict title save).
  rewrite (yields_plot_counts counts_dict title save w). split; [reflexivity|].
  destruct counts_dict as [[|kv rest]|], save; simpl; repeat constructor.
Qed.

Lemma seedless_truth_table_row b qc qr cr input :
  seedless (truth_table_row b qc qr cr input).
Proof.
  destruct input as [[m t] g]. unfold truth_table_row.
  apply seedless_bind; [apply seedless_lift|]. intros full.
  apply seedless_bind; [apply seedless_backend_run|]. intros counts.
  apply seedless_bind; [apply seedless_lift|]. intros kill.
  apply seedless_bind; [apply seedless_lift|]. intros prob. apply seedless_ret.
Qed.

Lemma seedless_evaluate_truth_table_quantum b :
  seedless (evaluate_truth_table_quantum b).
Proof.
  unfold evaluate_truth_table_quantum.
  apply seedless_bind; [apply seedless_lift|]. intros [[qc qr] cr].
  apply seedless_bind; [|intros rows; apply seedless_ret].
  apply seedless_for_each. intros input. apply seedless_truth_table_row.
Qed.

Lemma seedless_superposition_counts b noisy nm :
  seedless (superposition_counts b noisy nm).
Proof.
  unfold superposition_counts.
  apply seedless_bind; [apply seedless_lift|]. intros full.
  apply seedless_backend_run.
Qed.

Lemma seedless_main b : seedless (main b).
Proof.
  unfold main.
  repeat first
    [ apply seedless_evaluate_truth_table_quantum
    | apply seedless_superposition_counts
    | apply seedless_plot_counts
    | apply seedless_emit; exact I
    | apply seedless_bind; [ | intros ?] ].
Qed.

(* ================================================================== *)
(** ** The main program *)
(* ================================================================== *)


Lemma yields_main b w :
  well_behaved b ->
  exists evs,
    yields (main b) w tt 10 evs /\
    backend_runs evs
    = map (truth_table_request b) inputs8 ++
      [superposition_request b None;
       superposition_request b (Some default_noise_model)].
Proof.
  intros Hb. eexists. split.
  - unfold main.
    eapply yields_bind'; [apply yields_emit | | reflexivity | reflexivity].
    eapply yields_bind';
      [apply (yields_evaluate_truth_table_quantum Hb) | | reflexivity | reflexivity].
    eapply yields_bind'; [apply yields_emit | | reflexivity | reflexivity].
    eapply yields_bind'; [apply yields_emit | | reflexivity | reflexivity].
    eapply yields_bind'; [apply yields_superposition_counts | | reflexivity | reflexivity].
    eapply yields_bind'; [apply yields_emit | | reflexivity | reflexivity].
    eapply yields_bind'; [apply yields_plot_counts | | reflexivity | reflexivity].
    eapply yields_bind'; [apply yields_emit | | reflexivity | reflexivity].
    cbv zeta.
    eapply yields_bind'; [apply yields_superposition_counts | | reflexivity | reflexivity].
    eapply yields_bind'; [apply yields_emit | | reflexivity | reflexivity].
    eapply yields_bind'; [apply yields_plot_counts | | reflexivity | reflexivity].
    apply yields_emit.
  - repeat rewrite backend_runs_app.
    rewrite !backend_runs_plot_events.
    rewrite <- (map_map (truth_table_request b) BackendRun), backend_runs_map.
    reflexivity.
Qed.

Lemma map_from_ext {A B} (f g : nat -> A -> B) :
  (forall k x, f k x = g k x) -> forall xs k, map_from f k xs = map_from g k xs.
Proof.
  intros Hfg xs. induction xs as [|x rest IH]; intros k; simpl; [reflexivity|].
  now rewrite Hfg, IH.
Qed.

Lemma Forall_forallb {A} (p : A -> bool) (P : A -> Prop) xs :
  (forall x, p x = true -> P x) -> forallb p xs = true -> Forall P xs.
Proof.
  intros Hp Hall. apply Forall_forall. intros x Hin.
  apply Hp. rewrite forallb_forall in Hall. now apply Hall.
Qed.


(* ================================================================== *)
(** ** The claims *)
(* ================================================================== *)

(** C1 (evaluation at the failing input). On the noiseless reference
    engine, from any world, the truth-table driver returns the eight rows
    below. The quantum kill probability is the parity of the inputs
    corrected by the three pairwise ANDs; it agrees with the classical OR on
    seven rows and is 0 against a classical 1 on the row (1, 1, 1). *)
Theorem truth_table_all_ones_disagrees (w : World) :
  yields (evaluate_truth_table_quantum ideal_backend) w
         [mkRow 0 0 0 0 0; mkRow 0 0 1 1 1; mkRow 0 1 0 1 1; mkRow 0 1 1 1 1;
          mkRow 1 0 0 1 1; mkRow 1 0 1 1 1; mkRow 1 1 0 1 1; mkRow 1 1 1 0 1]
         8
         (map (fun input => BackendRun (truth_table_request ideal_backend input)) inputs8)
  /\ parity_with_pair_corrections true true true = false
  /\ kill_rule_classical 1 1 1 = 1%Z.
Proof.
  split; [|split; reflexivity].
  pose proof (yields_evaluate_truth_table_quantum ideal_backend_well_behaved w) as Hrun.
  unfold inputs8 at 1 in Hrun. cbn [map_from] in Hrun.
  rewrite !ideal_expected_row in Hrun by (simpl; tauto).
  exact Hrun.
Qed.

(** C2. The circuit returned by [build_reversible_kill_circuit] has five
    qubits (and one classical bit), with M, T, G, the ancilla and K at
    positions 0 to 4, and its instructions are Reset(4); CX(0,4); CX(1,4);
    CX(2,4); CCX(0,1,4); CCX(0,2,4); CCX(1,2,4), in this order. *)
Theorem kill_circuit_structure :
  build_reversible_kill_circuit
  = Ok (mkCircuit 5 1 [Reset 4; CX 0 4; CX 1 4; CX 2 4;
                       CCX 0 1 4; CCX 0 2 4; CCX 1 2 4],
        QuantumRegister 5 "q", ClassicalRegister 1 "c")
  /\ (q_M, q_T, q_G, q_ancilla, q_K) = (0, 1, 2, 3, 4).
Proof. split; reflexivity. Qed.

(** C3. Against a backend whose histograms satisfy the data model's
    invariants, the truth-table driver returns normally, having invoked the
    simulator exactly eight times, once per input triple in [product] order;
    the circuit of each invocation is the transpiled sequence "X on every
    input qubit whose input is 1, then the kill circuit, then the
    measurement of K", with 1024 shots, no noise model and no seed; and the
    row of each input holds the count of the bitstrings starting with '1'
    divided by the sum of all counts. *)
Theorem truth_table_driver_contract (b : Backend) (w : World) :
  well_behaved b ->
  inputs8 = product3 [0%Z; 1%Z] /\
  yields (evaluate_truth_table_quantum b) w
    (map_from
       (fun k input =>
          let counts := execute b (transpile b (truth_table_full input)) 1024 None
                                (entropy w k) in
          let '(mutation, timer, geosense) := input in
          mkRow mutation timer geosense
                (Qred (Qdiv (inject_Z (Z.of_nat (kill_mass counts)))
                            (inject_Z (Z.of_nat (sum (values counts))))))
                (kill_rule_classical mutation timer geosense))
       (drawn w) inputs8)
    8
    (map (fun input =>
            BackendRun (mkRunRequest (transpile b (truth_table_full input)) 1024 None None))
         inputs8)
  /\ (forall input,
        truth_table_full input
        = mkCircuit 5 1 (prep_ops input ++ kill_ops ++ [Measure q_K 0])).
Proof.
  intros Hb. split; [reflexivity|]. split; [|reflexivity].
  pose proof (yields_evaluate_truth_table_quantum Hb w) as Hrun.
  erewrite map_from_ext; [exact Hrun|].
  intros k [[m t] g]. cbv zeta. unfold expected_row, truth_table_counts.
  destruct Hb as [Htr Hex].
  destruct (Hex (transpile b (truth_table_full (m, t, g))) 1024 None (entropy w k))
    as [Hsum _].
  now rewrite Hsum.
Qed.

Lemma truth_table_driver_contract_witness :
  well_behaved ideal_backend /\
  yields (evaluate_truth_table_quantum ideal_backend) world0
    (map_from
       (fun k input =>
          let counts := execute ideal_backend
                                (transpile ideal_backend (truth_table_full input))
                                1024 None (entropy world0 k) in
          let '(mutation, timer, geosense) := input in
          mkRow mutation timer geosense
                (Qred (Qdiv (inject_Z (Z.of_nat (kill_mass counts)))
                            (inject_Z (Z.of_nat (sum (values counts))))))
                (kill_rule_classical mutation timer geosense))
       (drawn world0) inputs8)
    8
    (map (fun input =>
            BackendRun (mkRunRequest (transpile ideal_backend (truth_table_full input))
                                     1024 None None))
         inputs8).
Proof.
  split; [exact ideal_backend_well_behaved|].
  exact (proj1 (proj2 (truth_table_driver_contract world0 ideal_backend_well_behaved))).
Defined.

(** C4. [superposition_counts] invokes the simulator once, on the circuit
    "H on qubits 0, 1 and 2, then the kill circuit, then the measurement of
    all five qubits into five classical bits", with 4096 shots. Against a
    well-behaved backend the main program returns normally and its
    simulator invocations are the eight of the truth table followed by
    exactly two of the superposition circuit: the first without a noise
    model, the second with the noise model of [build_simple_noise_model]. *)
Theorem superposition_driver_contract (b : Backend) (w : World) :
  well_behaved b ->
  superposition_full
  = mkCircuit 5 5
      ([H 0; H 1; H 2] ++ kill_ops ++
       [Measure 4 0; Measure 3 1; Measure 2 2; Measure 1 3; Measure 0 4])
  /\ (forall noisy noise_model,
        yields (superposition_counts b noisy noise_model) w
               (execute b (transpile b superposition_full) 4096
                        (if noisy then noise_model else None) (entropy w (drawn w)))
               1
               [BackendRun (mkRunRequest (transpile b superposition_full) 4096
                                         (if noisy then noise_model else None) None)])
  /\ exists evs,
       yields (main b) w tt 10 evs /\
       backend_runs evs
       = map (truth_table_request b) inputs8 ++
         [mkRunRequest (transpile b superposition_full) 4096 None None;
          mkRunRequest (transpile b superposition_full) 4096
            (Some (build_simple_noise_model default_p1 default_p2 default_readout_err))
            None].
Proof.
  intros Hb. split; [reflexivity|]. split.
  - intros noisy noise_model. apply yields_superposition_counts.
  - apply (yields_main w Hb).
Qed.

Lemma superposition_driver_contract_witness :
  well_behaved ideal_backend /\
  exists evs,
    yields (main ideal_backend) world0 tt 10 evs /\
    backend_runs evs
    = map (truth_table_request ideal_backend) inputs8 ++
      [mkRunRequest superposition_full 4096 None None;
       mkRunRequest superposition_full 4096
         (Some (build_simple_noise_model default_p1 default_p2 default_readout_err))
         None].
Proof.
  split; [exact ideal_backend_well_behaved|].
  exact (proj2 (proj2
           (superposition_driver_contract world0 ideal_backend_well_behaved))).
Defined.


(** C6. With [noisy=False], [superposition_counts] does the same whatever
    noise model it is given: the result and the final world (events, draws
    from the random source) are those of the call with [noise_model=None];
    the one simulator invocation carries no noise model, and the only value
    drawn from the random source is the seed of the run. *)
Theorem noiseless_run_ignores_noise_model (b : Backend) (nm : option NoiseModel)
    (w : World) :
  superposition_counts b false nm w = superposition_counts b false None w
  /\ yields (superposition_counts b false nm) w
            (execute b (transpile b superposition_full) 4096 None (entropy w (drawn w)))
            1
            [BackendRun (mkRunRequest (transpile b superposition_full) 4096 None None)].
Proof.
  split; [reflexivity|]. apply (yields_superposition_counts b false nm w).
Qed.

(** C7, as stated, fails: on the reference engine, with the random source
    0, 1, 2, ..., two successive superposition runs are invocations of the
    same circuit with the same shot count and no seed, and their histograms
    differ. *)
Lemma superposition_runs_unseeded_and_differ :
  let run1 := superposition_counts ideal_backend false None world0 in
  let run2 := superposition_counts ideal_backend false None (snd run1) in
  backend_runs (trace (snd run2))
  = [mkRunRequest superposition_full 4096 None None;
     mkRunRequest superposition_full 4096 None None]
  /\ fst run1 <> fst run2.
Proof.
  cbv zeta. split; [reflexivity|].
  vm_compute. intros Heq. discriminate Heq.
Qed.

(** C7, amended. No simulator invocation of the script passes a seed: every
    event that the truth-table driver, the superposition driver or the main
    program adds to the trace is unseeded, so each run takes its seed from
    the process-wide random source; and the histogram of a superposition run
    is the backend's answer for the circuit, 4096 shots, the noise model and
    the value drawn from that source. A run that is given a seed draws
    nothing from the source and returns the backend's answer for that seed,
    so two such runs of one circuit with one seed and one shot count
    return the same histogram. *)
Theorem runs_are_seeded_from_ambient_source (b : Backend) :
  seedless (main b)
  /\ seedless (evaluate_truth_table_quantum b)
  /\ (forall noisy nm, seedless (superposition_counts b noisy nm))
  /\ (forall noisy nm w,
        fst (superposition_counts b noisy nm w)
        = Ok (execute b (transpile b superposition_full) 4096
                      (if noisy then nm else None) (entropy w (drawn w)))
        /\ drawn (snd (superposition_counts b noisy nm w)) = S (drawn w))
  /\ (forall qc shots nm seed w,
        fst (backend_run b qc shots nm (Some seed) w)
        = Ok (execute b qc shots nm seed)
        /\ drawn (snd (backend_run b qc shots nm (Some seed) w)) = drawn w).
Proof.
  split; [apply seedless_main|].
  split; [apply seedless_evaluate_truth_table_quantum|].
  split; [intros; apply seedless_superposition_counts|].
  split.
  - intros noisy nm w. rewrite (yields_superposition_counts b noisy nm w).
    split; [reflexivity|]. simpl. lia.
  - intros qc shots nm seed w. split; reflexivity.
Qed.



(** C9. No instruction of the kill circuit acts on qubit 3, and neither
    does any instruction of the circuit a truth-table iteration runs
    (preparation, kill circuit, measurement of K). On the reference engine
    every state such a run passes through is a basis state with qubit 3
    at 0. *)
Theorem ancilla_untouched_on_truth_table_path (mutation timer geosense : Z) :
  (exists qc qr cr,
      build_reversible_kill_circuit = Ok (qc, qr, cr) /\
      Forall (fun i => ~ In q_ancilla (qubits_of i)) (data qc) /\
      exists full,
        truth_table_circuit qc qr cr mutation timer geosense = Ok full /\
        data full = prep_ops (mutation, timer, geosense) ++ data qc ++ [Measure q_K 0] /\
        Forall (fun i => ~ In q_ancilla (qubits_of i)) (data full) /\
        Forall (fun sv => qubit_zero q_ancilla sv /\ total (weights sv) = 1%Z)
               (trajectory (data full) (zero_state (num_qubits full)))).
Proof.
  exists kill_circuit, (QuantumRegister 5 "q"), (ClassicalRegister 1 "c").
  split; [reflexivity|]. split.
  - repeat constructor; unfold q_ancilla, q_M, q_T, q_G, q_K; simpl; lia.
  - exists (truth_table_full (mutation, timer, geosense)).
    split; [apply truth_table_circuit_eq|]. split; [reflexivity|].
    pose proof (truth_table_full_avoids_ancilla (mutation, timer, geosense)) as Hout.
    split; [exact Hout|].
    apply Forall_and.
    + apply qubit_zero_trajectory; [exact Hout|apply qubit_zero_zero_state].
    + eapply Forall_forallb; [|apply truth_table_full_basis_states].
      intros sv Hsv. now apply Z.eqb_eq.
Qed.

(** C10. Called with [None] or with an empty dictionary, [plot_counts]
    prints "No data to plot for <title>" and returns: that line is the only
    event, whatever [save] is; no figure, no show, no directory, no file. *)
Theorem plot_counts_without_data (title : string) (save : bool) (w : World) :
  plot_counts None title save w
  = (Ok tt, mkWorld (entropy w) (drawn w)
                    (trace w ++ [Print ("No data to plot for " ++ title)%string]))
  /\ plot_counts (Some []) title save w
     = (Ok tt, mkWorld (entropy w) (drawn w)
                       (trace w ++ [Print ("No data to plot for " ++ title)%string])).
Proof. split; reflexivity. Qed.

(* ================================================================== *)
(** ** Further properties *)
(* ================================================================== *)

(** X1. [kill_rule_classical] returns the first of mutation, timer,
    geosense that is not zero, and the last one when the first two are zero:
    the result is 0 exactly when all three inputs are 0, it is always one of
    the inputs (a non-zero input is not normalised to 1), and on inputs that
    are 0 or 1 it is the boolean OR. *)
Theorem kill_rule_classical_first_nonzero (m t g : Z) (a b c : bool) :
  kill_rule_classical m t g
  = (if (m =? 0)%Z then if (t =? 0)%Z then g else t else m)
  /\ (kill_rule_classical m t g = 0%Z <-> m = 0%Z /\ t = 0%Z /\ g = 0%Z)
  /\ In (kill_rule_classical m t g) [m; t; g]
  /\ kill_rule_classical (Z.b2z a) (Z.b2z b) (Z.b2z c) = Z.b2z (a || b || c).
Proof.
  assert (Hfirst : kill_rule_classical m t g
                   = if (m =? 0)%Z then if (t =? 0)%Z then g else t else m).
  { unfold kill_rule_classical, int, py_or, truthy.
    destruct (m =? 0)%Z eqn:Em; simpl.
    - destruct (t =? 0)%Z; reflexivity.
    - now rewrite Em. }
  split; [exact Hfirst|].
  split; [|split; [|destruct a, b, c; reflexivity]]; rewrite Hfirst;
    destruct (Z.eqb_spec m 0) as [->|Hm];
    try destruct (Z.eqb_spec t 0) as [->|Ht]; simpl; try tauto;
    split; try tauto; intros Hz; repeat split; congruence.
Qed.

(** X2. On the reference engine the circuit of a truth-table iteration
    ends in one basis state: the input qubits still hold the truth values of
    the inputs they were prepared with, the ancilla is 0, and the kill qubit
    holds the parity of the inputs corrected by the pairwise ANDs. *)
Theorem truth_table_final_state (input : Z * Z * Z) :
  final_state (truth_table_full input)
  = basis_state 5 (register_index input (kill_bit_of input)).
Proof.
  destruct input as [[m t] g].
  unfold truth_table_full, prep_ops, register_index, kill_bit_of, bit_of.
  destruct (truthy m), (truthy t), (truthy g); vm_compute; reflexivity.
Qed.

(** X3. Every circuit the script hands to the simulator (the truth-table
    circuit of any input, the superposition circuit) keeps the circuit
    invariants: all operands name bits of the circuit, no gate follows a
    measurement, and no classical bit is written twice. The truth-table
    circuit writes classical bit 0 only, the superposition circuit bits 0
    to 4 from qubits 4 down to 0. *)
Theorem circuits_keep_invariants (input : Z * Z * Z) :
  (well_formed (truth_table_full input) = true
   /\ measures_terminal (data (truth_table_full input)) = true
   /\ measured_clbits (data (truth_table_full input)) = [0])
  /\ (well_formed superposition_full = true
      /\ measures_terminal (data superposition_full) = true
      /\ measured_clbits (data superposition_full) = [0; 1; 2; 3; 4]
      /\ map (fun c => measured_into c (data superposition_full)) [0; 1; 2; 3; 4]
         = [Some q_K; Some q_ancilla; Some q_G; Some q_T; Some q_M]).
Proof.
  split; [|repeat split].
  destruct input as [[m t] g]. unfold truth_table_full, prep_ops.
  destruct (truthy m), (truthy t), (truthy g); repeat split.
Qed.




Lemma list_ascii_of_string_app (s1 s2 : string) :
  list_ascii_of_string (s1 ++ s2)%string
  = list_ascii_of_string s1 ++ list_ascii_of_string s2.
Proof. induction s1 as [|c s1 IH]; simpl; congruence. Qed.

Lemma string_length_app (s1 s2 : string) :
  String.length (s1 ++ s2)%string = String.length s1 + String.length s2.
Proof. induction s1 as [|c s1 IH]; simpl; congruence. Qed.

Lemma replace_removes (old new : ascii) (s : string) :
  old <> new -> ~ In old (list_ascii_of_string (replace old new s)).
Proof.
  intros Hneq. induction s as [|c s IH]; simpl; [tauto|].
  intros [Heq|Hin]; [|now apply IH].
  destruct (Ascii.eqb_spec c old) as [->|Hc]; congruence.
Qed.

Lemma replace_idempotent (old new : ascii) (s : string) :
  old <> new -> replace old new (replace old new s) = replace old new s.
Proof.
  intros Hneq. induction s as [|c s IH]; simpl; [reflexivity|].
  rewrite IH. f_equal.
  destruct (Ascii.eqb_spec c old) as [->|Hc].
  - destruct (Ascii.eqb_spec new old) as [Heq|_]; [congruence|reflexivity].
  - destruct (Ascii.eqb_spec c old); [contradiction|reflexivity].
Qed.

(** X6. The path [plot_counts] saves under contains no space, whatever the
    title, and is ten characters longer than the title; sanitising is
    idempotent, so a title and its sanitised form (for instance "a b" and
    "a_b") are saved to the same file. *)
Theorem plot_path_has_no_space (title : string) :
  ~ In " "%char (list_ascii_of_string (plot_path title))
  /\ String.length (plot_path title) = String.length title + 10
  /\ plot_path (replace " " "_" title) = plot_path title.
Proof.
  unfold plot_path. split; [|split].
  - rewrite !list_ascii_of_string_app, !in_app_iff.
    intros [Hin|[Hin|Hin]].
    + simpl in Hin. repeat (destruct Hin as [Hin|Hin]; [discriminate Hin|]).
      exact Hin.
    + revert Hin. apply replace_removes. discriminate.
    + simpl in Hin. repeat (destruct Hin as [Hin|Hin]; [discriminate Hin|]).
      exact Hin.
  - rewrite !string_length_app, replace_length. simpl. lia.
  - rewrite replace_idempotent by discriminate. reflexivity.
Qed.

(* ------------------------------------------------------------------ *)
(** *** Sampling stays in the support of the state *)

Lemma weights_nonneg (sv : StateVector) : Forall (fun x => (0 <= x)%Z) (weights sv).
Proof.
  unfold weights. apply Forall_forall. intros x Hin.
  apply in_map_iff in Hin as [a [<- _]]. apply Z.square_nonneg.
Qed.

Lemma pick_support (ws : list Z) :
  Forall (fun x => (0 <= x)%Z) ws ->
  forall r, (0 <= r < total ws)%Z -> (0 < nth (pick ws r) ws 0)%Z.
Proof.
  induction 1 as [|x rest Hx _ IH]; intros r Hr; simpl in *.
  - lia.
  - destruct (Z.ltb_spec r x) as [Hlt|Hge]; [lia|].
    apply IH. lia.
Qed.

Lemma sample_support (ws : list Z) shots s :
  Forall (fun x => (0 <= x)%Z) ws -> (0 < total ws)%Z ->
  Forall (fun i => (0 < nth i ws 0)%Z) (sample ws shots s).
Proof.
  intros Hnn Hpos. revert s. induction shots as [|n IH]; intros s; simpl.
  - constructor.
  - constructor; [|apply IH].
    unfold draw. apply pick_support; [exact Hnn|].
    apply Z.mod_pos_bound. exact Hpos.
Qed.

Lemma run_ideal_keys (P : string -> Prop) qc shots seed :
  (0 < total (weights (final_state qc)))%Z ->
  (forall i, (0 < nth i (weights (final_state qc)) 0)%Z -> P (bitstring qc i)) ->
  Forall P (keys (run_ideal qc shots seed)).
Proof.
  intros Hpos Hsupp. unfold run_ideal, tally.
  apply fold_increment_keys; [|constructor].
  apply Forall_forall. intros key Hin.
  apply in_map_iff in Hin as [i [<- Hi]]. apply Hsupp.
  pose proof (sample_support shots seed (weights_nonneg (final_state qc)) Hpos) as Hall.
  rewrite Forall_forall in Hall. now apply Hall.
Qed.

Lemma superposition_support_checked :
  forallb (fun i =>
             if (0 <? nth i (weights (final_state superposition_full)) 0)%Z
             then existsb (String.eqb (bitstring superposition_full i))
                          (map (fun '(m, t, g) => superposition_key m t g) all_bits)
             else true)
          (seq 0 32) = true.
Proof. vm_compute. reflexivity. Qed.

Lemma superposition_support (i : nat) :
  (0 < nth i (weights (final_state superposition_full)) 0)%Z ->
  exists m t g, bitstring superposition_full i = superposition_key m t g.
Proof.
  intros Hpos.
  assert (Hlt : i < 32).
  { destruct (Nat.lt_ge_cases i 32) as [Hlt|Hge]; [exact Hlt|].
    rewrite nth_overflow in Hpos; [lia|].
    replace (List.length (weights (final_state superposition_full))) with 32
      by (vm_compute; reflexivity).
    exact Hge. }
  pose proof superposition_support_checked as Hall.
  rewrite forallb_forall in Hall.
  specialize (Hall i). rewrite in_seq in Hall. specialize (Hall ltac:(lia)).
  apply Z.ltb_lt in Hpos. rewrite Hpos in Hall.
  apply existsb_exists in Hall as [key [Hin Heq]].
  apply String.eqb_eq in Heq. rewrite Heq.
  apply in_map_iff in Hin as [[[m t] g] [<- _]]. now exists m, t, g.
Qed.

(** X7. A noiseless superposition run on the reference engine returns,
    from every world (every seed), a histogram whose counts add up to 4096
    and whose keys all read M, T, G, ancilla, K from left to right, with the
    ancilla '0' and K the parity of M, T, G corrected by the pairwise ANDs:
    the kill bit is the last character of the key, not the first, and the
    key of the inputs 1, 1, 1 ends in '0'. *)
Theorem superposition_histogram_keys (nm : option NoiseModel) (w : World) :
  exists counts,
    yields (superposition_counts ideal_backend false nm) w counts 1
           [BackendRun (mkRunRequest superposition_full 4096 None None)]
    /\ sum (values counts) = 4096
    /\ Forall (fun key => exists m t g, key = superposition_key m t g) (keys counts)
    /\ superposition_key true true true = "11100"%string.
Proof.
  eexists. split; [apply (yields_superposition_counts ideal_backend false nm w)|].
  cbn [execute transpile ideal_backend].
  split; [apply run_ideal_histogram|]. split; [|reflexivity].
  apply run_ideal_keys; [vm_compute; reflexivity|].
  apply superposition_support.
Qed.

(* ------------------------------------------------------------------ *)
(** *** The truth-table loop against an arbitrary backend *)

Lemma kill_count_outcome (counts : Counts) :
  kill_count counts
  = if has_empty_key counts then Raise IndexError else Ok (kill_mass counts).
Proof.
  unfold has_empty_key, kill_mass.
  induction counts as [|[key cnt] rest IH]; simpl; [reflexivity|].
  destruct key as [|c key']; simpl; [reflexivity|].
  rewrite IH. destruct (existsb _ (keys rest)); simpl; [reflexivity|].
  destruct (Ascii.eqb c "1"); reflexivity.
Qed.

Lemma kill_mass_le_sum (counts : Counts) : kill_mass counts <= sum (values counts).
Proof.
  unfold kill_mass, values, sum.
  induction counts as [|[key cnt] rest IH]; simpl; [lia|].
  destruct (leads_with_one key); simpl; lia.
Qed.

Lemma truth_table_row_outcome b input w :
  truth_table_row b kill_circuit (QuantumRegister 5 "q") (ClassicalRegister 1 "c")
                  input w
  = (row_outcome b (entropy w) (drawn w) input,
     after w 1 [BackendRun (truth_table_request b input)]).
Proof.
  destruct input as [[m t] g].
  unfold truth_table_row, row_outcome.
  unfold mbind at 1. unfold lift at 1. rewrite truth_table_circuit_eq.
  unfold mbind at 1.
  rewrite (yields_backend_run b (transpile b (truth_table_full (m, t, g))) 1024 None w).
  fold (truth_table_counts b (entropy w) (drawn w) (m, t, g)).
  fold (truth_table_request b (m, t, g)).
  set (counts := truth_table_counts b (entropy w) (drawn w) (m, t, g)).
  unfold mbind, lift, mret. rewrite kill_count_outcome.
  destruct (has_empty_key counts); [reflexivity|].
  unfold truediv.
  destruct (Nat.eqb_spec (sum (values counts)) 0) as [Hz|Hnz].
  - rewrite Hz. reflexivity.
  - destruct (Z.eqb_spec (Z.of_nat (sum (values counts))) 0) as [Hz'|_]; [lia|].
    reflexivity.
Qed.

Lemma after_zero (w : World) : after w 0 [] = w.
Proof. unfold after. destruct w; simpl. now rewrite Nat.add_0_r, app_nil_r. Qed.

Lemma for_each_prefix {A B} (body : A -> M B) (out : nat -> A -> result B)
    (ev : A -> Event) (ent : nat -> Z) :
  (forall x w, entropy w = ent -> body x w = (out (drawn w) x, after w 1 [ev x])) ->
  forall xs w, entropy w = ent ->
    exists n,
      n <= List.length xs /\
      snd (for_each xs body w) = after w n (map ev (firstn n xs)) /\
      match fst (for_each xs body w) with
      | Ok ys => n = List.length xs /\ map Ok ys = map_from out (drawn w) xs
      | Raise e =>
          0 < n /\ exists x, nth_error xs (pred n) = Some x /\
                             out (drawn w + pred n) x = Raise e
      end.
Proof.
  intros Hbody xs. induction xs as [|x rest IH]; intros w Hent.
  - exists 0. simpl. rewrite after_zero. repeat split; lia.
  - assert (Hstep : for_each (x :: rest) body w
                    = match out (drawn w) x with
                      | Ok y =>
                          match for_each rest body (after w 1 [ev x]) with
                          | (Ok ys, w') => (Ok (y :: ys), w')
                          | (Raise e, w') => (Raise e, w')
                          end
                      | Raise e => (Raise e, after w 1 [ev x])
                      end).
    { cbn [for_each]. unfold mbind, mret. rewrite (Hbody x w Hent).
      destruct (out (drawn w) x); [|reflexivity].
      destruct (for_each rest body (after w 1 [ev x])) as [[ys|e] w']; reflexivity. }
    rewrite Hstep. clear Hstep.
    destruct (out (drawn w) x) as [y|e] eqn:Hout.
    + destruct (IH (after w 1 [ev x]) Hent) as (n & Hn & Hsnd & Hfst).
      exists (S n).
      destruct (for_each rest body (after w 1 [ev x])) as [[ys|e] w'];
        simpl in Hsnd, Hfst; subst w'; simpl fst; simpl snd.
      * destruct Hfst as [-> Hys]. repeat split.
        -- simpl. lia.
        -- now rewrite after_after.
        -- simpl. rewrite Hout, Hys. now rewrite Nat.add_1_r.
      * destruct Hfst as (Hpos & x' & Hnth & Hx'). repeat split.
        -- simpl. lia.
        -- now rewrite after_after.
        -- lia.
        -- exists x'. simpl pred. split.
           ++ destruct n; [lia|]. exact Hnth.
           ++ rewrite <- Hx'. f_equal. lia.
    + exists 1. simpl. repeat split; try lia.
      exists x. split; [reflexivity|]. now rewrite Nat.add_0_r.
Qed.

Lemma row_outcome_errors b ent k input e :
  row_outcome b ent k input = Raise e -> e = IndexError \/ e = ZeroDivisionError.
Proof.
  destruct input as [[m t] g]. unfold row_outcome.
  destruct (has_empty_key _); [intros [= <-]; now left|].
  destruct (_ =? 0); [intros [= <-]; now right|discriminate].
Qed.

Lemma evaluate_truth_table_quantum_prefix b w :
  exists n,
    n <= 8 /\
    snd (evaluate_truth_table_quantum b w)
    = after w n (map (fun input => BackendRun (truth_table_request b input))
                     (firstn n inputs8)) /\
    match fst (evaluate_truth_table_quantum b w) with
    | Ok rows =>
        n = 8 /\ map Ok rows = map_from (row_outcome b (entropy w)) (drawn w) inputs8
    | Raise e =>
        0 < n /\ (e = IndexError \/ e = ZeroDivisionError) /\
        exists input, nth_error inputs8 (pred n) = Some input /\
                      row_outcome b (entropy w) (drawn w + pred n) input = Raise e
    end.
Proof.
  assert (Hstep : evaluate_truth_table_quantum b w
                  = for_each inputs8
                      (truth_table_row b kill_circuit (QuantumRegister 5 "q")
                                       (ClassicalRegister 1 "c")) w).
  { unfold evaluate_truth_table_quantum, mbind, lift, mret.
    rewrite build_reversible_kill_circuit_eq, product3_bits.
    destruct (for_each inputs8 _ w) as [[rows|e] w']; reflexivity. }
  rewrite Hstep. clear Hstep.
  destruct (@for_each_prefix _ _
              (truth_table_row b kill_circuit (QuantumRegister 5 "q")
                               (ClassicalRegister 1 "c"))
              (row_outcome b (entropy w))
              (fun input => BackendRun (truth_table_request b input))
              (entropy w)) with (xs := inputs8) (w := w)
    as (n & Hn & Hsnd & Hfst); [|reflexivity|].
  { intros x w0 <-. apply truth_table_row_outcome. }
  exists n.
  destruct (for_each inputs8 _ w) as [[rows|e] w']; simpl in Hsnd, Hfst |- *; subst w'.
  - repeat split; try tauto; exact Hn.
  - destruct Hfst as (Hpos & x & Hnth & Hx). repeat split; try assumption.
    + eapply row_outcome_errors; exact Hx.
    + now exists x.
Qed.

Lemma map_from_length {A B} (f : nat -> A -> B) xs k :
  List.length (map_from f k xs) = List.length xs.
Proof. revert k. induction xs as [|x rest IH]; intros k; simpl; congruence. Qed.

Lemma map_from_outcomes {A B} (out : nat -> A -> result B) xs :
  forall k ys, map Ok ys = map_from out k xs ->
               Forall2 (fun y x => exists k', out k' x = Ok y) ys xs.
Proof.
  induction xs as [|x rest IH]; intros k ys Heq; destruct ys as [|y ys];
    simpl in Heq; try discriminate; constructor.
  - exists k. now injection Heq as -> _.
  - injection Heq as _ Hrest. eapply IH; exact Hrest.
Qed.

Lemma row_outcome_raise b ent k input e :
  row_outcome b ent k input = Raise e ->
  let counts := truth_table_counts b ent k input in
  (has_empty_key counts = true /\ e = IndexError) \/
  (has_empty_key counts = false /\ sum (values counts) = 0 /\ e = ZeroDivisionError).
Proof.
  destruct input as [[m t] g]. unfold row_outcome. cbv zeta.
  destruct (has_empty_key _); [intros [= <-]; now left|].
  destruct (Nat.eqb_spec (sum (values (truth_table_counts b ent k (m, t, g)))) 0)
    as [Hz|_]; [intros [= <-]; right; auto|discriminate].
Qed.

Lemma ratio_bounds (a s : nat) :
  a <= s -> s <> 0 ->
  let p := Qred (Qdiv (inject_Z (Z.of_nat a)) (inject_Z (Z.of_nat s))) in
  Qle 0 p /\ Qle p 1.
Proof.
  intros Hle Hs. cbv zeta. rewrite Qred_correct.
  destruct s as [|s]; [congruence|].
  unfold Qle, Qdiv, Qmult, Qinv, inject_Z. simpl Qnum. simpl Qden.
  rewrite !Z.mul_1_r, ?Pos.mul_1_l. simpl Z.mul.
  split; [lia|]. rewrite Zpos_P_of_succ_nat. lia.
Qed.

Lemma row_outcome_ok b ent k input row :
  row_outcome b ent k input = Ok row ->
  (Mutation row, Timer row, Geosensing row) = input
  /\ Classical_Kill row
     = kill_rule_classical (Mutation row) (Timer row) (Geosensing row)
  /\ Qle 0 (Quantum_Prob_Kill row) /\ Qle (Quantum_Prob_Kill row) 1.
Proof.
  destruct input as [[m t] g]. unfold row_outcome.
  destruct (has_empty_key _); [discriminate|].
  destruct (Nat.eqb_spec (sum (values (truth_table_counts b ent k (m, t, g)))) 0)
    as [_|Hnz]; [discriminate|].
  intros [= <-]. simpl. split; [reflexivity|]. split; [reflexivity|].
  apply ratio_bounds; [apply kill_mass_le_sum|exact Hnz].
Qed.

(** X8. Against any backend, the truth-table driver invokes the simulator
    for the eight inputs in order and stops at the first histogram it
    cannot use: if it raises, the invocations made are the first n of the
    eight (1 <= n <= 8), and the histogram of the n-th either has an empty
    key (IndexError) or has no empty key and counts adding up to 0
    (ZeroDivisionError); it never raises anything else, and if it returns
    it has made all eight invocations and returns eight rows. *)
Theorem truth_table_stops_at_first_bad_histogram (b : Backend) (w : World) :
  exists n,
    n <= 8 /\
    snd (evaluate_truth_table_quantum b w)
    = after w n (map (fun input => BackendRun (truth_table_request b input))
                     (firstn n inputs8)) /\
    match fst (evaluate_truth_table_quantum b w) with
    | Ok rows => n = 8 /\ List.length rows = 8
    | Raise e =>
        0 < n /\
        exists input,
          nth_error inputs8 (pred n) = Some input /\
          let counts := truth_table_counts b (entropy w) (drawn w + pred n) input in
          (has_empty_key counts = true /\ e = IndexError) \/
          (has_empty_key counts = false /\ sum (values counts) = 0
           /\ e = ZeroDivisionError)
    end.
Proof.
  destruct (evaluate_truth_table_quantum_prefix b w) as (n & Hn & Hsnd & Hfst).
  exists n. split; [exact Hn|]. split; [exact Hsnd|].
  destruct (fst (evaluate_truth_table_quantum b w)) as [rows|e].
  - destruct Hfst as [-> Hrows]. split; [reflexivity|].
    rewrite <- (length_map Ok rows), Hrows. apply map_from_length.
  - destruct Hfst as (Hpos & _ & input & Hnth & Hout). split; [exact Hpos|].
    exists input. split; [exact Hnth|]. now apply row_outcome_raise.
Qed.

Lemma row_outcomes_sound b ent rows inputs :
  Forall2 (fun r input => exists k, row_outcome b ent k input = Ok r) rows inputs ->
  map (fun r => (Mutation r, Timer r, Geosensing r)) rows = inputs
  /\ Forall (fun r =>
               Qle 0 (Quantum_Prob_Kill r) /\ Qle (Quantum_Prob_Kill r) 1
               /\ Classical_Kill r
                  = kill_rule_classical (Mutation r) (Timer r) (Geosensing r))
            rows.
Proof.
  induction 1 as [|r input rows' inputs' [k Hout] _ IH]; simpl.
  - split; constructor.
  - destruct IH as [IHmap IHall].
    destruct (row_outcome_ok _ _ _ _ Hout) as (Hcols & Hclass & Hlo & Hhi).
    split; [now rewrite Hcols, IHmap|].
    constructor; [tauto|exact IHall].
Qed.

(** X9. Whatever the backend, when the truth-table driver returns, every
    row's Quantum_Prob_Kill lies between 0 and 1, its Classical_Kill is the
    classical rule of the row's own Mutation, Timer and Geosensing, and
    these three columns enumerate the eight input triples in [product]
    order. *)
Theorem truth_table_rows_are_sound (b : Backend) (w : World) (rows : list Row) :
  fst (evaluate_truth_table_quantum b w) = Ok rows ->
  map (fun r => (Mutation r, Timer r, Geosensing r)) rows = inputs8
  /\ Forall (fun r =>
               Qle 0 (Quantum_Prob_Kill r) /\ Qle (Quantum_Prob_Kill r) 1
               /\ Classical_Kill r
                  = kill_rule_classical (Mutation r) (Timer r) (Geosensing r))
            rows.
Proof.
  intros Hok.
  destruct (evaluate_truth_table_quantum_prefix b w) as (n & _ & _ & Hfst).
  rewrite Hok in Hfst. destruct Hfst as [_ Hrows].
  apply map_from_outcomes in Hrows.
  eapply row_outcomes_sound. exact Hrows.
Qed.

Lemma truth_table_rows_are_sound_witness :
  fst (evaluate_truth_table_quantum ideal_backend world0)
  = Ok [mkRow 0 0 0 0 0; mkRow 0 0 1 1 1; mkRow 0 1 0 1 1; mkRow 0 1 1 1 1;
        mkRow 1 0 0 1 1; mkRow 1 0 1 1 1; mkRow 1 1 0 1 1; mkRow 1 1 1 0 1]
  /\ Forall (fun r =>
               Qle 0 (Quantum_Prob_Kill r) /\ Qle (Quantum_Prob_Kill r) 1
               /\ Classical_Kill r
                  = kill_rule_classical (Mutation r) (Timer r) (Geosensing r))
            [mkRow 0 0 0 0 0; mkRow 0 0 1 1 1; mkRow 0 1 0 1 1; mkRow 0 1 1 1 1;
             mkRow 1 0 0 1 1; mkRow 1 0 1 1 1; mkRow 1 1 0 1 1; mkRow 1 1 1 0 1].
Proof.
  assert (Hrun : fst (evaluate_truth_table_quantum ideal_backend world0)
                 = Ok [mkRow 0 0 0 0 0; mkRow 0 0 1 1 1; mkRow 0 1 0 1 1;
                       mkRow 0 1 1 1 1; mkRow 1 0 0 1 1; mkRow 1 0 1 1 1;
                       mkRow 1 1 0 1 1; mkRow 1 1 1 0 1])
    by (vm_compute; reflexivity).
  split; [exact Hrun|].
  exact (proj2 (truth_table_rows_are_sound ideal_backend world0 Hrun)).
Defined.

(** A backend that answers every run with an empty histogram makes the
    driver raise at the first input. *)
Example empty_histograms_raise :
  evaluate_truth_table_quantum (mkBackend (fun qc => qc) (fun _ _ _ _ => [])) world0
  = (Raise ZeroDivisionError,
     after world0 1
       [BackendRun (mkRunRequest (truth_table_full (0, 0, 0)%Z) 1024 None None)]).
Proof. reflexivity. Qed.

(** X10. Against any backend the main program either returns, having made
    exactly its ten simulator invocations in order (eight truth-table runs,
    then the superposition run without and with the noise model), or raises
    IndexError or ZeroDivisionError inside the truth table; in that case it
    has printed the first heading and made the first n truth-table
    invocations (1 <= n <= 8) and nothing else: no table, no superposition
    run, no plot. *)
Theorem main_returns_or_stops_in_truth_table (b : Backend) (w : World) :
  match fst (main b w) with
  | Ok _ =>
      exists evs, snd (main b w) = after w 10 evs /\ backend_runs evs = main_requests b
  | Raise e =>
      (e = IndexError \/ e = ZeroDivisionError) /\
      exists n,
        0 < n <= 8 /\
        snd (main b w)
        = after w n
            (Print "1 Classical vs Quantum truth table (ideal simulator):"
             :: map (fun input => BackendRun (truth_table_request b input))
                    (firstn n inputs8))
  end.
Proof.
  set (heading := Print "1 Classical vs Quantum truth table (ideal simulator):").
  unfold main. fold heading.
  match goal with
  | |- context [mbind (evaluate_truth_table_quantum b) ?K] => set (tail := K)
  end.
  assert (Htail : forall df w1, exists evs,
             yields (tail df) w1 tt 2 evs /\
             backend_runs evs
             = [superposition_request b None;
                superposition_request b (Some default_noise_model)]).
  { intros df w1. eexists. split.
    - unfold tail.
      eapply yields_bind'; [apply yields_emit | | reflexivity | reflexivity].
      eapply yields_bind'; [apply yields_emit | | reflexivity | reflexivity].
      eapply yields_bind';
        [apply yields_superposition_counts | | reflexivity | reflexivity].
      eapply yields_bind'; [apply yields_emit | | reflexivity | reflexivity].
      eapply yields_bind'; [apply yields_plot_counts | | reflexivity | reflexivity].
      eapply yields_bind'; [apply yields_emit | | reflexivity | reflexivity].
      cbv zeta.
      eapply yields_bind';
        [apply yields_superposition_counts | | reflexivity | reflexivity].
      eapply yields_bind'; [apply yields_emit | | reflexivity | reflexivity].
      eapply yields_bind'; [apply yields_plot_counts | | reflexivity | reflexivity].
      apply yields_emit.
    - repeat rewrite backend_runs_app. rewrite !backend_runs_plot_events.
      reflexivity. }
  assert (Hstep : mbind (emit heading)
                        (fun _ => mbind (evaluate_truth_table_quantum b) tail) w
                  = match evaluate_truth_table_quantum b (after w 0 [heading]) with
                    | (Ok df, w') => tail df w'
                    | (Raise e, w') => (Raise e, w')
                    end).
  { unfold mbind at 1. rewrite (yields_emit heading w). reflexivity. }
  rewrite Hstep. clear Hstep.
  destruct (evaluate_truth_table_quantum_prefix b (after w 0 [heading]))
    as (n & Hn & Hsnd & Hfst).
  rewrite after_after in Hsnd. simpl in Hsnd.
  destruct (evaluate_truth_table_quantum b (after w 0 [heading])) as [[df|e] w'];
    simpl in Hsnd, Hfst; subst w'.
  - destruct Hfst as [-> _].
    destruct (Htail df (after w 8 (heading
                :: map (fun input => BackendRun (truth_table_request b input))
                       (firstn 8 inputs8)))) as (evs & Hrun & Hruns).
    rewrite Hrun. simpl fst. simpl snd. rewrite after_after.
    eexists. split; [reflexivity|].
    rewrite backend_runs_app, Hruns. reflexivity.
  - destruct Hfst as (Hpos & Herr & _). simpl. split; [exact Herr|].
    exists n. split; [lia|reflexivity].
Qed.

(* ------------------------------------------------------------------ *)
(** *** Events a statement can cause *)

Section Confined.

Variable P : Event -> Prop.

Lemma confined_ret {A} (a : A) : confined P (mret a).
Proof.
  intros w. exists 0, []. split; [|constructor]. simpl. now rewrite after_zero.
Qed.

Lemma confined_lift {A} (r : result A) : confined P (lift r).
Proof.
  intros w. exists 0, []. split; [|constructor]. simpl. now rewrite after_zero.
Qed.

Lemma confined_emit ev : P ev -> confined P (emit ev).
Proof.
  intros Hev w. exists 0, [ev]. split; [|now repeat constructor].
  now rewrite (yields_emit ev w).
Qed.

Lemma confined_bind {A B} (m : M A) (f : A -> M B) :
  confined P m -> (forall a, confined P (f a)) -> confined P (mbind m f).
Proof.
  intros Hm Hf w. unfold mbind.
  destruct (Hm w) as (k1 & e1 & H1 & Hall1).
  destruct (m w) as [[a|e] w1]; simpl in H1; subst w1.
  - destruct (Hf a (after w k1 e1)) as (k2 & e2 & H2 & Hall2).
    exists (k1 + k2), (e1 ++ e2). rewrite H2, after_after. split; [reflexivity|].
    apply Forall_app; now split.
  - now exists k1, e1.
Qed.

Lemma confined_for_each {A B} (body : A -> M B) xs :
  (forall x, confined P (body x)) -> confined P (for_each xs body).
Proof.
  intros Hbody. induction xs as [|x rest IH]; simpl.
  - apply confined_ret.
  - apply confined_bind; [apply Hbody|]. intros y.
    apply confined_bind; [exact IH|]. intros ys. apply confined_ret.
Qed.

Hypothesis P_backend_run : forall rq, P (BackendRun rq).

Lemma confined_backend_run b qc shots nm seed :
  confined P (backend_run b qc shots nm seed).
Proof.
  unfold backend_run.
  apply confined_bind; [apply confined_emit, P_backend_run|]. intros _.
  apply confined_bind; [|intros s; apply confined_ret].
  destruct seed as [s|]; [apply confined_ret|].
  intros w. exists 1, []. split; [|constructor].
  now rewrite (yields_ambient_draw w).
Qed.

Lemma confined_evaluate_truth_table_quantum b :
  confined P (evaluate_truth_table_quantum b).
Proof.
  unfold evaluate_truth_table_quantum.
  apply confined_bind; [apply confined_lift|]. intros [[qc qr] cr].
  apply confined_bind; [|intros rows; apply confined_ret].
  apply confined_for_each. intros [[m t] g]. unfold truth_table_row.
  apply confined_bind; [apply confined_lift|]. intros full.
  apply confined_bind; [apply confined_backend_run|]. intros counts.
  apply confined_bind; [apply confined_lift|]. intros kill.
  apply confined_bind; [apply confined_lift|]. intros prob. apply confined_ret.
Qed.

Lemma confined_superposition_counts b noisy nm :
  confined P (superposition_counts b noisy nm).
Proof.
  unfold superposition_counts.
  apply confined_bind; [apply confined_lift|]. intros full.
  apply confined_backend_run.
Qed.

End Confined.

Lemma confined_plot_counts_unsaved counts_dict title :
  confined (fun ev => touches_files ev = false) (plot_counts counts_dict title false).
Proof.
  intros w. exists 0, (plot_events counts_dict title false).
  rewrite (yields_plot_counts counts_dict title false w). split; [reflexivity|].
  destruct counts_dict as [[|kv rest]|]; simpl; repeat constructor.
Qed.

(** X11. The main program never creates a directory and never writes a
    file, whatever the backend answers and whether it returns or raises:
    both of its [plot_counts] calls leave [save] at its default, and a
    [plot_counts] call without [save] causes no such event for any counts
    and title. *)
Theorem main_writes_no_file (b : Backend) (counts_dict : option Counts)
    (title : string) :
  confined (fun ev => touches_files ev = false) (main b)
  /\ confined (fun ev => touches_files ev = false)
              (plot_counts counts_dict title false).
Proof.
  split; [|apply confined_plot_counts_unsaved].
  unfold main.
  repeat first
    [ apply confined_evaluate_truth_table_quantum; intros; reflexivity
    | apply confined_superposition_counts; intros; reflexivity
    | apply confined_plot_counts_unsaved
    | apply confined_emit; reflexivity
    | apply confined_bind; [ | intros ?] ].
Qed.



